(** * The agentic orchestration core: routing, dialog stack, retry loop, tool fallback

    A shallow embedding of [agentic/utils.py], [agentic/assistants.py],
    [agentic/states.py], [agentic/tools.py] and of the graph topology declared
    in [graph.py] ([AgentGraph.define_workflow]).

    Python values are modelled as follows.
    - [str] is [string]; [list] is [list]; [Optional[str]] is [option string].
    - A raised exception is the [Raise] case of [Result].
    - The [while True] loop of [Assistant.__call__] is a fuel-indexed
      fixpoint: [None] means that the loop is still running when the fuel is
      spent, so termination is the existence of a sufficient fuel.
    - The language model behind a runnable is a deterministic machine with an
      internal state of its own (a scripted model is such a machine). *)

From Stdlib Require Import List String Ascii Bool Arith Lia.
Import ListNotations.
Local Open Scope string_scope.
Local Open Scope list_scope.

Set Implicit Arguments.

(** ** Exceptions and fallible results *)

Inductive PyException : Type :=
| ValueError (msg : string)
| AttributeError (msg : string)
| IndexError (msg : string)
| NameError (msg : string)
| ToolException (repr_text : string).

Fixpoint contains_char (c : ascii) (s : string) : bool :=
  match s with
  | EmptyString => false
  | String c' rest => Ascii.eqb c' c || contains_char c rest
  end.

Definition single_quote : ascii := ascii_of_nat 39.
Definition double_quote : ascii := ascii_of_nat 34.

(** [repr] of a string without characters to escape: between single quotes,
    and between double quotes when it holds a single quote and no double
    quote. *)
Definition str_repr (m : string) : string :=
  let q := if contains_char single_quote m && negb (contains_char double_quote m)
           then double_quote else single_quote in
  (String q m ++ String q EmptyString)%string.

(** [repr(error)] as Python prints it for an exception carrying one string. *)
Definition repr (e : PyException) : string :=
  match e with
  | ValueError m => ("ValueError(" ++ str_repr m ++ ")")%string
  | AttributeError m => ("AttributeError(" ++ str_repr m ++ ")")%string
  | IndexError m => ("IndexError(" ++ str_repr m ++ ")")%string
  | NameError m => ("NameError(" ++ str_repr m ++ ")")%string
  | ToolException r => r
  end.

(** [repr] of the value read by [state.get("error")]: the key may be absent. *)
Definition repr_opt (e : option PyException) : string :=
  match e with
  | Some x => repr x
  | None => "None"
  end.

Inductive Result (A : Type) : Type :=
| Ok (a : A)
| Raise (e : PyException).

Arguments Ok {A} a.
Arguments Raise {A} e.

Definition bind {A B : Type} (r : Result A) (k : A -> Result B) : Result B :=
  match r with
  | Ok a => k a
  | Raise e => Raise e
  end.

Notation "x <- r ;; k" := (bind r (fun x => k))
  (at level 61, r at next level, right associativity).

(** ** Messages *)

Module Msg.

(** A tool call is a dict with the keys ["name"], ["args"] and ["id"]. *)
Record ToolCall : Type := mkToolCall {
  tc_name : string;
  tc_args : string;
  tc_id : string
}.

(** One block of a structured content: a dict, read with [.get]. *)
Definition Block : Type := list (string * string).

Fixpoint dict_get (d : Block) (k : string) : option string :=
  match d with
  | [] => None
  | (k', v) :: rest => if String.eqb k' k then Some v else dict_get rest k
  end.

(** [content] is a string or a list of blocks. *)
Inductive Content : Type :=
| Text (s : string)
| Blocks (l : list Block).

(** What a model call returns: an assistant message. *)
Record AIResult : Type := mkAI {
  content : Content;
  tool_calls : list ToolCall
}.

(** The entries of a message list.  Only assistant messages carry the
    attribute [tool_calls]; [RoleTuple] is the [(role, text)] pair that
    [Assistant.__call__] appends to its working copy. *)
Inductive Message : Type :=
| HumanMessage (text : string)
| AIMessage (r : AIResult)
| ToolMessage (text : string) (tool_call_id : string)
| RoleTuple (role : string) (text : string).

(** The name of the class of an entry. *)
Definition type_name (m : Message) : string :=
  match m with
  | HumanMessage _ => "HumanMessage"
  | AIMessage _ => "AIMessage"
  | ToolMessage _ _ => "ToolMessage"
  | RoleTuple _ _ => "tuple"
  end.

(** [m.tool_calls]: an [AttributeError] where the attribute is missing. *)
Definition get_tool_calls (m : Message) : Result (list ToolCall) :=
  match m with
  | AIMessage r => Ok (tool_calls r)
  | _ => Raise (AttributeError
                  ("'" ++ type_name m ++ "' object has no attribute 'tool_calls'")%string)
  end.

(** [hasattr(m, "tool_calls") and len(m.tool_calls) > 0]. *)
Definition has_tool_calls (m : Message) : bool :=
  match m with
  | AIMessage r => match tool_calls r with [] => false | _ :: _ => true end
  | _ => false
  end.

(** [l[-1]] on a Python list. *)
Definition last_item {A : Type} (l : list A) : Result A :=
  match rev l with
  | [] => Raise (IndexError "list index out of range")
  | x :: _ => Ok x
  end.

(** [l[0]] on a Python list. *)
Definition first_item {A : Type} (l : list A) : Result A :=
  match l with
  | [] => Raise (IndexError "list index out of range")
  | x :: _ => Ok x
  end.

End Msg.
Import Msg.

(** ** [agentic/tools.py]: the names of the handoff and escalation tools *)

Module Tools.

Definition ToArchitectAssistant : string := "ToArchitectAssistant".
Definition ToCoderAssistant : string := "ToCoderAssistant".
Definition ToTesterAssistant : string := "ToTesterAssistant".
Definition CompleteOrEscalate : string := "CompleteOrEscalate".

End Tools.

(** ** [agentic/utils.py] and [agentic/states.py] *)

(** [left[:-1]]: all but the last element, and [[]] for [[]]. *)
Definition drop_last {A : Type} (l : list A) : list A :=
  firstn (List.length l - 1) l.

(** [update_dialog_stack(left, right)]. *)
Definition update_dialog_stack (left : list string) (right : option string)
  : list string :=
  match right with
  | None => left
  | Some r => if String.eqb r "pop" then drop_last left else left ++ [r]
  end.

(** [GraphState]: the two annotated channels, and the key ["error"] that the
    fallback machinery adds to the input of [handle_tool_error]. *)
Record GraphState : Type := mkState {
  messages : list Message;
  dialog_state : list string;
  error : option PyException
}.

(** What a node returns: the keys it sets.  A missing ["dialog_state"] key
    is [None]; a node in [Assistant.__call__] returns one message, which the
    message reducer treats as a list of one. *)
Record Delta : Type := mkDelta {
  d_messages : list Message;
  d_dialog_state : option string
}.

(** Modelled from the spec: langgraph's [add_messages] reducer is imported,
    not defined, in the repository; the spec gives its merge rule as
    "concatenate, preserving arrival order (no dedup, no reordering)". *)
Definition add_messages (left right : list Message) : list Message :=
  left ++ right.

(** The merge of a node's result into the state, channel by channel, with the
    reducers that [GraphState] annotates. *)
Definition merge (s : GraphState) (d : Delta) : GraphState :=
  {| messages := add_messages (messages s) (d_messages d);
     dialog_state := update_dialog_stack (dialog_state s) (d_dialog_state d);
     error := error s |}.

Definition newline : string := String (ascii_of_nat 10) EmptyString.

(** The content that [handle_tool_error] formats. *)
Definition error_content (e : option PyException) : string :=
  ("Error: " ++ repr_opt e ++ newline ++ " please fix your mistakes.")%string.

(** [handle_tool_error(state)]. *)
Definition handle_tool_error (state : GraphState) : Result Delta :=
  m <- last_item (messages state) ;;
  tcs <- get_tool_calls m ;;
  Ok {| d_messages :=
          map (fun tc => ToolMessage (error_content (error state)) (tc_id tc)) tcs;
        d_dialog_state := None |}.

(** A node: a function of the state that returns a delta or raises. *)
Definition Node : Type := GraphState -> Result Delta.

(** [runnable.with_fallbacks([fallback], exception_key="error")]: the
    runnable first; if it raises, the fallback on the input extended with the
    exception under the key; if the fallback raises too, the first exception. *)
Definition with_fallbacks (runnable fallback : Node) : Node :=
  fun state =>
    match runnable state with
    | Ok d => Ok d
    | Raise e =>
        match fallback {| messages := messages state;
                          dialog_state := dialog_state state;
                          error := Some e |} with
        | Ok d => Ok d
        | Raise _ => Raise e
        end
    end.

(** [create_tool_node_with_fallback(tools)], with [ToolNode(tools)] given. *)
Definition create_tool_node_with_fallback (tool_node : Node) : Node :=
  with_fallbacks tool_node handle_tool_error.

Definition resume_text : string :=
  "Resuming dialog with the primary assistant. Please reflect on the past conversation and assist the user as needed.".

(** [pop_dialog_state(state)], the node [leave_skill]. *)
Definition pop_dialog_state (state : GraphState) : Result Delta :=
  m <- last_item (messages state) ;;
  tcs <- get_tool_calls m ;;
  let msgs := match tcs with
              | [] => []
              | tc :: _ => [ToolMessage resume_text (tc_id tc)]
              end in
  Ok {| d_messages := msgs; d_dialog_state := Some "pop" |}.

(** [route_to_workflow(state)]. *)
Definition route_to_workflow (state : GraphState) : string :=
  match rev (dialog_state state) with
  | [] => "primary_assistant"
  | top :: _ => top
  end.

(** The text that the nested function [entry_node] formats. *)
Definition entry_text (assistant_name : string) : string :=
  ("The assistant is now the " ++ assistant_name
   ++ ". Reflect on the above conversation between the primary assistant and the user."
   ++ " The user's intent is unsatisfied. Use the provided tools to assist the user. Remember, you are "
   ++ assistant_name
   ++ ", and the identification, resolution, or any other action is not complete until after you have successfully invoked the appropriate tool."
   ++ " If the user changes their mind or needs help for other tasks, call the CompleteOrEscalate function to let the primary assistant take control."
   ++ " Do not mention who you are - just act as the proxy for the assistant.")%string.

(** The body of the nested function [entry_node] of [create_entry_node]. *)
Definition entry_node (assistant_name new_dialog_state : string) : Node :=
  fun state =>
    m <- last_item (messages state) ;;
    tcs <- get_tool_calls m ;;
    tc <- first_item tcs ;;
    Ok {| d_messages := [ToolMessage (entry_text assistant_name) (tc_id tc)];
          d_dialog_state := Some new_dialog_state |}.

(** The names that the module [utils.py] binds: its imports (lines 1 to 5)
    and its own functions. *)
Definition utils_globals : list string :=
  ["Optional"; "Callable"; "ToolMessage"; "RunnableLambda"; "ToolNode";
   "update_dialog_stack"; "handle_tool_error"; "create_tool_node_with_fallback";
   "create_entry_node"; "pop_dialog_state"; "route_to_workflow"; "format_name"].

(** The builtin names that the annotations of [utils.py] use. *)
Definition builtin_names : list string := ["dict"; "str"; "list"].

(** The evaluation of a name in [utils.py]: a [NameError] when neither the
    module nor the builtins bind it. *)
Definition resolve_name (n : string) : Result unit :=
  if existsb (String.eqb n) (utils_globals ++ builtin_names) then Ok tt
  else Raise (NameError ("name '" ++ n ++ "' is not defined")%string).

(** [create_entry_node(assistant_name, new_dialog_state)].  Executing the
    nested [def entry_node(state: TypedDict) -> dict] evaluates its two
    annotations (Python before 3.14, without the import of [annotations]
    from [__future__]), and only then is the function there to return. *)
Definition create_entry_node (assistant_name new_dialog_state : string)
  : Result Node :=
  _ <- resolve_name "TypedDict" ;;
  _ <- resolve_name "dict" ;;
  Ok (entry_node assistant_name new_dialog_state).

(** ** [agentic/assistants.py] *)

Definition END : string := "__end__".
Definition START : string := "__start__".

(** Modelled from the spec: langgraph's [tools_condition] is imported, not
    defined, in the repository.  It reads the last message of the state: the
    route is ["tools"] when that message has a non-empty [tool_calls], [END]
    otherwise ("if the last Message has no tool calls, the session path has
    reached a terminal point"); a state without messages is refused. *)
Definition tools_condition (state : GraphState) : Result string :=
  match rev (messages state) with
  | [] => Raise (ValueError "No messages found in input state to tool_edge")
  | m :: _ => Ok (if has_tool_calls m then "tools" else END)
  end.

(** The model behind a runnable: [invoke] reads the state and answers with
    an assistant message; [M] is whatever the model keeps between calls. *)
Record Runnable (M : Type) : Type := mkRunnable {
  invoke : M -> GraphState -> AIResult * M
}.

Module Assistant.

Definition directive : Message := RoleTuple "user" "Respond with a real output.".

(** Python truth value of [result.content]. *)
Definition content_truthy (c : Content) : bool :=
  match c with
  | Text s => negb (String.eqb s "")
  | Blocks [] => false
  | Blocks (_ :: _) => true
  end.

(** [isinstance(result.content, list)]. *)
Definition is_list (c : Content) : bool :=
  match c with
  | Text _ => false
  | Blocks _ => true
  end.

(** Python truth value of [result.content[0].get("text")]; it is evaluated
    on non-empty lists only, by the short circuit of [or] and [and]. *)
Definition first_text_truthy (c : Content) : bool :=
  match c with
  | Blocks (b :: _) =>
      match dict_get b "text" with
      | Some t => negb (String.eqb t "")
      | None => false
      end
  | _ => false
  end.

(** The condition of the [if] in the loop of [__call__]. *)
Definition needs_retry (result : AIResult) : bool :=
  match tool_calls result with
  | _ :: _ => false
  | [] =>
      negb (content_truthy (content result))
      || (is_list (content result) && negb (first_text_truthy (content result)))
  end.

(** [{**state, "messages": state["messages"] + [("user", ...)]}]. *)
Definition with_directive (state : GraphState) : GraphState :=
  {| messages := messages state ++ [directive];
     dialog_state := dialog_state state;
     error := error state |}.

(** What a finished call leaves: the returned dict, the model afterwards,
    and the number of model invocations the loop made. *)
Record Outcome (M : Type) : Type := mkOutcome {
  returned : Delta;
  model_after : M;
  invocations : nat
}.

Section Call.
Variable M : Type.
Variable runnable : Runnable M.

(** The [while True] loop; [done] counts the invocations made so far. *)
Fixpoint call_loop (fuel : nat) (m : M) (state : GraphState) (done : nat)
  : option (Outcome M) :=
  match fuel with
  | O => None
  | S fuel' =>
      let (result, m') := invoke runnable m state in
      if needs_retry result
      then call_loop fuel' m' (with_directive state) (S done)
      else Some {| returned := {| d_messages := [AIMessage result];
                                  d_dialog_state := None |};
                   model_after := m';
                   invocations := S done |}
  end.

(** [Assistant.__call__(state, config)]. *)
Definition call (fuel : nat) (m : M) (state : GraphState) : option (Outcome M) :=
  call_loop fuel m state 0.

(** The [k]-th invocation of a call started at [m] and [state]: the answer
    of the model, after [k] earlier answers that were all retried. *)
Fixpoint nth_result (k : nat) (m : M) (state : GraphState) : AIResult :=
  match k with
  | O => fst (invoke runnable m state)
  | S k' => nth_result k' (snd (invoke runnable m state)) (with_directive state)
  end.

End Call.

End Assistant.

Module PrimaryAssistant.

Definition default_name : string := "primary_assistant".

(** [PrimaryAssistant.route_assistant(state)], for an assistant named [name]. *)
Definition route_assistant (name : string) (state : GraphState) : Result string :=
  route <- tools_condition state ;;
  if String.eqb route END then Ok END
  else
    m <- last_item (messages state) ;;
    tcs <- get_tool_calls m ;;
    match tcs with
    | tc :: _ =>
        if String.eqb (tc_name tc) Tools.ToArchitectAssistant
        then Ok "enter_architect_assistant"
        else if String.eqb (tc_name tc) Tools.ToCoderAssistant
        then Ok "enter_coder_assistant"
        else if String.eqb (tc_name tc) Tools.ToTesterAssistant
        then Ok "enter_tester_assistant"
        else Ok (name ++ "_tools")%string
    | [] => Raise (ValueError "Invalid route")
    end.

(** The node names that the [return] statements of the router produce. *)
Definition return_values (name : string) : list string :=
  [END; "enter_architect_assistant"; "enter_coder_assistant";
   "enter_tester_assistant"; (name ++ "_tools")%string].

End PrimaryAssistant.

Module SecondaryAssistant.

(** [SecondaryAssistant.route_assistant(state)], for an assistant named [name]. *)
Definition route_assistant (name : string) (state : GraphState) : Result string :=
  route <- tools_condition state ;;
  if String.eqb route END then Ok END
  else
    m <- last_item (messages state) ;;
    tcs <- get_tool_calls m ;;
    if existsb (fun tc => String.eqb (tc_name tc) Tools.CompleteOrEscalate) tcs
    then Ok "leave_skill"
    else Ok (name ++ "_tools")%string.

Definition return_values (name : string) : list string :=
  [END; "leave_skill"; (name ++ "_tools")%string].

End SecondaryAssistant.

(** ** [graph.py]: the topology that [AgentGraph.define_workflow] declares *)

Module Graph.

(** What is registered under a node name. *)
Inductive NodeSpec : Type :=
| EntryNode (assistant_name : string)
| AssistantNode (name : string)
| ToolsNode (owner : string)
| LeaveSkill.

(** The function given to [add_conditional_edges]. *)
Inductive RouterRef : Type :=
| PrimaryRouter (name : string)
| SecondaryRouter (name : string)
| WorkflowRouter.

Record Branch : Type := mkBranch {
  b_source : string;
  b_router : RouterRef;
  b_path_map : option (list string)
}.

(** The builder [StateGraph(GraphState)]. *)
Record StateGraph : Type := mkGraph {
  nodes : list (string * NodeSpec);
  edges : list (string * string);
  branches : list Branch
}.

Definition empty : StateGraph :=
  {| nodes := []; edges := []; branches := [] |}.

Definition add_node (name : string) (spec : NodeSpec) (g : StateGraph) : StateGraph :=
  {| nodes := nodes g ++ [(name, spec)]; edges := edges g; branches := branches g |}.

Definition add_edge (src dst : string) (g : StateGraph) : StateGraph :=
  {| nodes := nodes g; edges := edges g ++ [(src, dst)]; branches := branches g |}.

Definition add_conditional_edges (src : string) (router : RouterRef)
    (path_map : option (list string)) (g : StateGraph) : StateGraph :=
  {| nodes := nodes g; edges := edges g;
     branches := branches g ++ [mkBranch src router path_map] |}.

Definition secondary_assistants : list string :=
  ["architect_assistant"; "coder_assistant"; "tester_assistant"].

(** The body of the [for assistant in secondary_assistants] loop. *)
Definition add_secondary (g : StateGraph) (name : string) : StateGraph :=
  let g := add_node ("enter_" ++ name)%string (EntryNode name) g in
  let g := add_node name (AssistantNode name) g in
  let g := add_node (name ++ "_tools")%string (ToolsNode name) g in
  let g := add_edge ("enter_" ++ name)%string name g in
  let g := add_edge (name ++ "_tools")%string name g in
  add_conditional_edges name (SecondaryRouter name)
    (Some [(name ++ "_tools")%string; "leave_skill"; END]) g.

(** [define_workflow], up to [builder.compile]. *)
Definition define_workflow : StateGraph :=
  let g := fold_left add_secondary secondary_assistants empty in
  let g := add_node "primary_assistant"
             (AssistantNode PrimaryAssistant.default_name) g in
  let g := add_node "primary_assistant_tools"
             (ToolsNode PrimaryAssistant.default_name) g in
  let g := add_node "leave_skill" LeaveSkill g in
  let g := add_conditional_edges "primary_assistant"
             (PrimaryRouter PrimaryAssistant.default_name)
             (Some ["enter_device_assistant"; "enter_telco_contract_assistant";
                    "primary_assistant_tools"; END]) g in
  let g := add_edge "primary_assistant_tools" "primary_assistant" g in
  let g := add_edge "leave_skill" "primary_assistant" g in
  add_conditional_edges START WorkflowRouter None g.

(** The conditional-edge targets declared for the node [src]. *)
Definition declared_targets (g : StateGraph) (src : string) : list string :=
  flat_map (fun b => if String.eqb (b_source b) src
                     then match b_path_map b with Some l => l | None => [] end
                     else [])
           (branches g).

(** The values that the router of a branch can return. *)
Definition router_returns (r : RouterRef) : list string :=
  match r with
  | PrimaryRouter name => PrimaryAssistant.return_values name
  | SecondaryRouter name => SecondaryAssistant.return_values name
  | WorkflowRouter => "primary_assistant" :: secondary_assistants
  end.

Definition mem (x : string) (l : list string) : bool :=
  existsb (String.eqb x) l.

(** Every return value of the router of [b] is a declared target of [b]. *)
Definition branch_covers_router (b : Branch) : bool :=
  match b_path_map b with
  | Some targets => forallb (fun t => mem t targets) (router_returns (b_router b))
  | None => true
  end.

(** The unconditional successors of a node. *)
Definition successors (g : StateGraph) (src : string) : list string :=
  map snd (filter (fun e => String.eqb (fst e) src) (edges g)).

End Graph.

(** ** Sequences of reducer operations on the dialog stack *)

Module Ops.

(** An operation is the [right] argument of the reducer. *)
Definition Op : Type := option string.

Definition is_pop (o : Op) : bool :=
  match o with
  | Some r => String.eqb r "pop"
  | None => false
  end.

Definition is_push (o : Op) : bool :=
  match o with
  | Some r => negb (String.eqb r "pop")
  | None => false
  end.

Definition pushes (ops : list Op) : nat := List.length (filter is_push ops).
Definition pops (ops : list Op) : nat := List.length (filter is_pop ops).

(** The reducer applied along a sequence, first operation first. *)
Definition run (start : list string) (ops : list Op) : list string :=
  fold_left update_dialog_stack ops start.

(** No pop of the sequence meets an empty stack, from a stack of [depth]
    entries. *)
Fixpoint no_underflow (depth : nat) (ops : list Op) : bool :=
  match ops with
  | [] => true
  | None :: rest => no_underflow depth rest
  | Some r :: rest =>
      if String.eqb r "pop"
      then match depth with
           | O => false
           | S d => no_underflow d rest
           end
      else no_underflow (S depth) rest
  end.

(** The bookkeeping of "pushed and not yet popped", read off the sequence
    alone, latest operation first: a pop cancels the nearest earlier push
    that is still standing.  [inl x]: the latest standing push is [x];
    [inr k]: no push stands, and [k] pops reach below the sequence. *)
Fixpoint scan (latest_first : list Op) (pending : nat) : string + nat :=
  match latest_first with
  | [] => inr pending
  | None :: rest => scan rest pending
  | Some r :: rest =>
      if String.eqb r "pop" then scan rest (S pending)
      else match pending with
           | O => inl r
           | S p => scan rest p
           end
  end.

Definition most_recent_unpopped (ops : list Op) : string + nat :=
  scan (rev ops) 0.

(** The stack without its last [k] entries. *)
Definition drop_n (k : nat) (l : list string) : list string :=
  firstn (List.length l - k) l.

End Ops.

(** ** The specification's wording, for comparison with the code *)

Module Spec.

(** The fixed handoff identifiers and the agent each one hands off to. *)
Definition handoffs : list (string * string) :=
  [(Tools.ToArchitectAssistant, "architect_assistant");
   (Tools.ToCoderAssistant, "coder_assistant");
   (Tools.ToTesterAssistant, "tester_assistant")].

Definition handoff_names : list string := map fst handoffs.

Fixpoint lookup (table : list (string * string)) (k : string) : option string :=
  match table with
  | [] => None
  | (k', v) :: rest => if String.eqb k' k then Some v else lookup rest k
  end.

(** The first tool call of a message, if it has one. *)
Definition first_tool_call (m : Message) : option ToolCall :=
  match m with
  | AIMessage r => hd_error (tool_calls r)
  | _ => None
  end.

(** The coordinator router as the specification words it: no tool call, the
    terminal marker; a handoff identifier, the matching "enter-<agent>" node;
    anything else, the coordinator's generic tool-execution node. *)
Definition coordinator_router (name : string) (last : Message) : string :=
  match first_tool_call last with
  | None => END
  | Some tc =>
      match lookup handoffs (tc_name tc) with
      | Some agent => ("enter_" ++ agent)%string
      | None => (name ++ "_tools")%string
      end
  end.

(** The tool names that the router's cases mention, with the tools bound to
    the coordinator's generic tool node ([basic_tools], which is empty). *)
Definition basic_tools : list string := [].

Definition known_tool_names : list string :=
  handoff_names ++ [Tools.CompleteOrEscalate] ++ basic_tools.

(** A content with text: a non-empty string, or a structured sequence whose
    first element has a non-empty text. *)
Definition carries_text (c : Content) : Prop :=
  match c with
  | Text s => s <> ""
  | Blocks [] => False
  | Blocks (b :: _) => exists t, dict_get b "text" = Some t /\ t <> ""
  end.

(** An acceptable turn: at least one tool call, or a content with text. *)
Definition acceptable (r : AIResult) : Prop :=
  tool_calls r <> [] \/ carries_text (content r).

(** An empty answer: no tool call and the empty string as content. *)
Definition empty_answer : AIResult := {| content := Text ""; tool_calls := [] |}.

End Spec.

(** ** Scripted models *)

Module Models.

(** A model that plays a script: one answer per invocation, whatever the
    state it is shown, and empty answers once the script is over. *)
Definition scripted : Runnable (list AIResult) :=
  {| invoke := fun script _ =>
       match script with
       | [] => (Spec.empty_answer, [])
       | r :: rest => (r, rest)
       end |}.

(** A model that never complies. *)
Definition always_empty : Runnable unit :=
  {| invoke := fun _ _ => (Spec.empty_answer, tt) |}.

Definition text_answer (s : string) : AIResult :=
  {| content := Text s; tool_calls := [] |}.

End Models.

(** ** [format_name] of [agentic/utils.py] *)

Module Text.

Definition underscore : ascii := "_"%char.
Definition space : ascii := " "%char.

(** [str.upper] and [str.lower] on one character of ASCII text. *)
Definition upper (c : ascii) : ascii :=
  let n := nat_of_ascii c in
  if ((97 <=? n) && (n <=? 122))%nat then ascii_of_nat (n - 32) else c.

Definition lower (c : ascii) : ascii :=
  let n := nat_of_ascii c in
  if ((65 <=? n) && (n <=? 90))%nat then ascii_of_nat (n + 32) else c.

Fixpoint lower_all (s : string) : string :=
  match s with
  | EmptyString => EmptyString
  | String c rest => String (lower c) (lower_all rest)
  end.

(** [part.capitalize()]: the first character in upper case, the others in
    lower case. *)
Definition capitalize (s : string) : string :=
  match s with
  | EmptyString => EmptyString
  | String c rest => String (upper c) (lower_all rest)
  end.

(** [name.split("_")]: the parts between underscores, empty parts kept; one
    empty part for the empty string. *)
Fixpoint split_underscore (s : string) : list string :=
  match s with
  | EmptyString => [EmptyString]
  | String c rest =>
      if Ascii.eqb c underscore then EmptyString :: split_underscore rest
      else match split_underscore rest with
           | [] => [String c EmptyString]
           | p :: ps => String c p :: ps
           end
  end.

(** [" ".join(parts)]. *)
Fixpoint join_space (parts : list string) : string :=
  match parts with
  | [] => EmptyString
  | [p] => p
  | p :: rest => (p ++ String space (join_space rest))%string
  end.

(** [format_name(name)]. *)
Definition format_name (name : string) : string :=
  join_space (map capitalize (split_underscore name)).

(** The text is ASCII: every character is below 128. *)
Fixpoint is_ascii_text (s : string) : bool :=
  match s with
  | EmptyString => true
  | String c rest => (nat_of_ascii c <? 128)%nat && is_ascii_text rest
  end.

(** One pass over the characters: an underscore becomes a space and opens a
    word; the character that opens a word is put in upper case, every other
    one in lower case. *)
Fixpoint retitle (word_start : bool) (s : string) : string :=
  match s with
  | EmptyString => EmptyString
  | String c rest =>
      if Ascii.eqb c underscore then String space (retitle true rest)
      else String (if word_start then upper c else lower c) (retitle false rest)
  end.

Fixpoint has_char (c : ascii) (s : string) : bool :=
  match s with
  | EmptyString => false
  | String c' rest => Ascii.eqb c' c || has_char c rest
  end.

End Text.

(** ** What the model is shown during one call of the invoker *)

Module Prompt.

Section Trace.
Variable M : Type.
Variable runnable : Runnable M.

(** The working copy at the [k]-th invocation. *)
Fixpoint nth_state (k : nat) (state : GraphState) : GraphState :=
  match k with
  | O => state
  | S k' => nth_state k' (Assistant.with_directive state)
  end.

(** The model as it stands before the [k]-th invocation. *)
Fixpoint nth_model (k : nat) (m : M) (state : GraphState) : M :=
  match k with
  | O => m
  | S k' => nth_model k' (snd (invoke runnable m state))
              (Assistant.with_directive state)
  end.

End Trace.

End Prompt.

(** ** Helpers for statements about routers, handlers and the topology *)

Module Aux.

(** The names of the tool calls of a message, in order. *)
Definition call_names (m : Message) : list string :=
  match m with
  | AIMessage r => map tc_name (tool_calls r)
  | _ => []
  end.

(** The ids of the tool calls of a message, in order. *)
Definition call_ids (m : Message) : list string :=
  match m with
  | AIMessage r => map tc_id (tool_calls r)
  | _ => []
  end.

Definition is_assistant (m : Message) : bool :=
  match m with
  | AIMessage _ => true
  | _ => false
  end.

(** The correlation id of a tool message. *)
Definition reply_id (m : Message) : option string :=
  match m with
  | ToolMessage _ i => Some i
  | _ => None
  end.

(** [reply] is a tool message correlated to a tool call of [m]. *)
Definition replies_to (m : Message) (reply : Message) : Prop :=
  exists text i, reply = ToolMessage text i /\ In i (call_ids m).

Definition node_names (g : Graph.StateGraph) : list string :=
  map fst (Graph.nodes g).

(** A model that gives the same answer at every invocation. *)
Definition constant_model (r : AIResult) : Runnable unit :=
  {| invoke := fun _ _ => (r, tt) |}.

(** The first block of a structured content has no text: the key is
    missing, or its value is the empty string. *)
Definition first_block_textless (c : Content) : Prop :=
  exists b rest,
    c = Blocks (b :: rest)
    /\ (dict_get b "text" = None \/ dict_get b "text" = Some "").

End Aux.

(** ** [define_workflow] as it runs *)

Module Build.

(** One turn of the loop [for assistant in secondary_assistants]: the
    arguments of the first [add_node] are evaluated first, the call of
    [create_entry_node] among them, and then the builder is extended. *)
Definition add_secondary (g : Graph.StateGraph) (name : string)
  : Result Graph.StateGraph :=
  _ <- create_entry_node (Text.format_name name) name ;;
  Ok (Graph.add_secondary g name).

(** The loop, which stops at the first turn that raises. *)
Fixpoint secondary_loop (names : list string) (g : Graph.StateGraph)
  : Result Graph.StateGraph :=
  match names with
  | [] => Ok g
  | name :: rest => g' <- add_secondary g name ;; secondary_loop rest g'
  end.

(** What [define_workflow] declares after the loop. *)
Definition after_loop (g : Graph.StateGraph) : Graph.StateGraph :=
  let g := Graph.add_node "primary_assistant"
             (Graph.AssistantNode PrimaryAssistant.default_name) g in
  let g := Graph.add_node "primary_assistant_tools"
             (Graph.ToolsNode PrimaryAssistant.default_name) g in
  let g := Graph.add_node "leave_skill" Graph.LeaveSkill g in
  let g := Graph.add_conditional_edges "primary_assistant"
             (Graph.PrimaryRouter PrimaryAssistant.default_name)
             (Some ["enter_device_assistant"; "enter_telco_contract_assistant";
                    "primary_assistant_tools"; END]) g in
  let g := Graph.add_edge "primary_assistant_tools" "primary_assistant" g in
  let g := Graph.add_edge "leave_skill" "primary_assistant" g in
  Graph.add_conditional_edges START Graph.WorkflowRouter None g.

(** [define_workflow] from the creation of the builder to the call of
    [compile]; the constructors of the assistants and of the builder are
    library calls and are taken to return. *)
Definition define_workflow : Result Graph.StateGraph :=
  g <- secondary_loop Graph.secondary_assistants Graph.empty ;;
  Ok (after_loop g).

End Build.

(** * Properties *)

(** ** Lists as Python uses them *)

Lemma last_item_app (A : Type) (l : list A) (x : A) :
  last_item (l ++ [x]) = Ok x.
Proof.
  unfold last_item. rewrite rev_app_distr. reflexivity.
Qed.

Lemma drop_last_app (A : Type) (l : list A) (x : A) :
  drop_last (l ++ [x]) = l.
Proof.
  unfold drop_last. rewrite length_app. simpl.
  replace (List.length l + 1 - 1) with (List.length l + 0) by lia.
  rewrite firstn_app_2. simpl. apply app_nil_r.
Qed.

Lemma drop_last_length (A : Type) (l : list A) :
  List.length (drop_last l) = List.length l - 1.
Proof.
  unfold drop_last. rewrite length_firstn. lia.
Qed.

Lemma tools_condition_app (ms : list Message) (m : Message)
    (ds : list string) (e : option PyException) :
  tools_condition (mkState (ms ++ [m]) ds e)
  = Ok (if has_tool_calls m then "tools" else END).
Proof.
  unfold tools_condition. simpl. rewrite rev_app_distr. reflexivity.
Qed.

(** ** The dialog-stack reducer *)

Lemma push_then_pop (s : list string) (x : string) :
  x <> "pop" ->
  update_dialog_stack (update_dialog_stack s (Some x)) (Some "pop") = s.
Proof.
  intros Hx. unfold update_dialog_stack at 2.
  destruct (String.eqb_spec x "pop") as [E | _]; [contradiction |].
  simpl. apply drop_last_app.
Qed.

(** C7: for every stack [s] and every pushed value, that is every argument
    [x] that the reducer takes as a push (a value that is present and is not
    the command "pop"), the reducer applied with [x] and then with "pop"
    returns exactly [s]. *)
Theorem C7_push_pop_roundtrip (s : list string) (x : Ops.Op)
    (Hpush : Ops.is_push x = true) :
  update_dialog_stack (update_dialog_stack s x) (Some "pop") = s.
Proof.
  destruct x as [v |]; [| discriminate Hpush].
  apply push_then_pop. intros E. subst v. discriminate Hpush.
Qed.

Lemma C7_push_pop_roundtrip_witness :
  Ops.is_push (Some "coder_assistant") = true /\
  update_dialog_stack
    (update_dialog_stack ["architect_assistant"] (Some "coder_assistant"))
    (Some "pop")
  = ["architect_assistant"].
Proof.
  split; [reflexivity |].
  exact (@C7_push_pop_roundtrip ["architect_assistant"] (Some "coder_assistant")
           eq_refl).
Defined.

(** C10: the reducer has a value on every input; a pop of the empty stack is
    the empty stack; and the node [leave_skill], run on a state whose stack
    is empty, returns normally, leaves the stack empty once merged, and is
    followed by the coordinator. *)
Theorem C10_pop_on_empty_is_noop :
  (forall (left : list string) (right : option string),
      exists out, update_dialog_stack left right = out)
  /\ update_dialog_stack [] (Some "pop") = []
  /\ (forall (ms : list Message) (r : AIResult) (e : option PyException),
        exists d,
          pop_dialog_state (mkState (ms ++ [AIMessage r]) [] e) = Ok d
          /\ dialog_state (merge (mkState (ms ++ [AIMessage r]) [] e) d) = [])
  /\ Graph.successors Graph.define_workflow "leave_skill" = ["primary_assistant"].
Proof.
  split; [| split; [| split]].
  - intros left right. eexists. reflexivity.
  - reflexivity.
  - intros ms r e. unfold pop_dialog_state. simpl.
    rewrite last_item_app. simpl. eexists. split; reflexivity.
  - reflexivity.
Qed.

(** ** The exit handler *)

(** C8: on a state whose last message is the assistant turn that triggered
    it, [leave_skill] returns normally; merged into the state it removes
    exactly the last entry of [dialog_state]; with at least one tool call it
    appends exactly one tool message, the resumption notice, correlated to
    the id of the first tool call; with no tool call it appends nothing. *)
Theorem C8_leave_skill :
  (forall ms c tc rest ds top e,
      let state := mkState (ms ++ [AIMessage (mkAI c (tc :: rest))]) (ds ++ [top]) e in
      exists d,
        pop_dialog_state state = Ok d
        /\ dialog_state (merge state d) = ds
        /\ d_messages d = [ToolMessage resume_text (tc_id tc)]
        /\ messages (merge state d)
           = messages state ++ [ToolMessage resume_text (tc_id tc)])
  /\ (forall ms c ds top e,
      let state := mkState (ms ++ [AIMessage (mkAI c [])]) (ds ++ [top]) e in
      exists d,
        pop_dialog_state state = Ok d
        /\ dialog_state (merge state d) = ds
        /\ d_messages d = []
        /\ messages (merge state d) = messages state)
  /\ (forall ms r ds e,
      let state := mkState (ms ++ [AIMessage r]) ds e in
      exists d,
        pop_dialog_state state = Ok d
        /\ d_dialog_state d = Some "pop"
        /\ dialog_state (merge state d) = drop_last ds).
Proof.
  split; [| split].
  - intros ms c tc rest ds top e state. subst state.
    unfold pop_dialog_state. simpl. rewrite last_item_app. simpl.
    eexists. split; [reflexivity |].
    split; [| split]; try reflexivity.
    apply (drop_last_app ds top).
  - intros ms c ds top e state. subst state.
    unfold pop_dialog_state. simpl. rewrite last_item_app. simpl.
    eexists. split; [reflexivity |].
    split; [| split]; try reflexivity.
    + apply (drop_last_app ds top).
    + unfold merge, add_messages. simpl. apply app_nil_r.
  - intros ms r ds e state. subst state.
    unfold pop_dialog_state. simpl. rewrite last_item_app. simpl.
    eexists. split; [reflexivity |]. split; reflexivity.
Qed.

(** ** The tool executor's fallback *)

Lemma handle_tool_error_on_ai (ms : list Message) (r : AIResult)
    (ds : list string) (e : option PyException) :
  handle_tool_error (mkState (ms ++ [AIMessage r]) ds e)
  = Ok {| d_messages :=
            map (fun tc => ToolMessage (error_content e) (tc_id tc)) (tool_calls r);
          d_dialog_state := None |}.
Proof.
  unfold handle_tool_error. simpl. rewrite last_item_app. reflexivity.
Qed.

(** C5: when the tool node raises on a state whose last message carries a
    non-empty list of tool calls, the node with fallback does not raise: it
    returns as many tool messages as there are tool calls; the message at
    each position is correlated to the id of the tool call at that position;
    and each content is "Error: ", the [repr] of the exception, a line break
    and " please fix your mistakes.". *)
Theorem C5_fallback_one_message_per_call
    (tool_node : Node) (ms : list Message) (c : Content) (tcs : list ToolCall)
    (ds : list string) (e0 : option PyException) (exc : PyException)
    (Hcalls : tcs <> [])
    (Hraise : tool_node (mkState (ms ++ [AIMessage (mkAI c tcs)]) ds e0) = Raise exc) :
  exists d,
    create_tool_node_with_fallback tool_node
      (mkState (ms ++ [AIMessage (mkAI c tcs)]) ds e0) = Ok d
    /\ List.length (d_messages d) = List.length tcs
    /\ (forall i tc, nth_error tcs i = Some tc ->
          nth_error (d_messages d) i
          = Some (ToolMessage
                    ("Error: " ++ repr exc ++ newline ++ " please fix your mistakes.")%string
                    (tc_id tc)))
    /\ d_dialog_state d = None.
Proof.
  unfold create_tool_node_with_fallback, with_fallbacks.
  rewrite Hraise. simpl.
  rewrite handle_tool_error_on_ai. simpl.
  eexists. split; [reflexivity |]. simpl.
  split; [apply length_map |].
  split; [| reflexivity].
  intros i tc Hi. rewrite nth_error_map, Hi. reflexivity.
Qed.

Lemma C5_fallback_witness :
  exists d,
    create_tool_node_with_fallback (fun _ => Raise (ToolException "KeyError('path')"))
      (mkState [HumanMessage "build me a REST API";
                AIMessage (mkAI (Text "") [mkToolCall "write_file" "{}" "call_1";
                                           mkToolCall "read_file" "{}" "call_2"])]
               ["coder_assistant"] None) = Ok d
    /\ d_messages d
       = [ToolMessage ("Error: KeyError('path')" ++ newline ++ " please fix your mistakes.")%string
            "call_1";
          ToolMessage ("Error: KeyError('path')" ++ newline ++ " please fix your mistakes.")%string
            "call_2"].
Proof.
  destruct (@C5_fallback_one_message_per_call
              (fun _ => Raise (ToolException "KeyError('path')"))
              [HumanMessage "build me a REST API"] (Text "")
              [mkToolCall "write_file" "{}" "call_1";
               mkToolCall "read_file" "{}" "call_2"]
              ["coder_assistant"] None (ToolException "KeyError('path')")
              ltac:(discriminate) eq_refl)
    as [d [Hd [_ [Hnth _]]]].
  exists d. split; [exact Hd |].
  simpl in Hd. injection Hd as Hd. subst d. reflexivity.
Defined.

(** ** The coordinator router *)

Lemma has_tool_calls_first (m : Message) :
  has_tool_calls m = match Spec.first_tool_call m with
                     | Some _ => true
                     | None => false
                     end.
Proof.
  destruct m as [t | [c [| tc rest]] | t i | r t]; reflexivity.
Qed.

(** The router on a state that has a last message, case by case. *)
Lemma route_primary_no_calls (name : string) (ms : list Message) (m : Message)
    (ds : list string) (e : option PyException) :
  has_tool_calls m = false ->
  PrimaryAssistant.route_assistant name (mkState (ms ++ [m]) ds e) = Ok END.
Proof.
  intros H. unfold PrimaryAssistant.route_assistant.
  rewrite tools_condition_app, H. reflexivity.
Qed.

Lemma route_primary_calls (name : string) (ms : list Message) (c : Content)
    (tc : ToolCall) (rest : list ToolCall) (ds : list string)
    (e : option PyException) :
  PrimaryAssistant.route_assistant name
    (mkState (ms ++ [AIMessage (mkAI c (tc :: rest))]) ds e)
  = Ok (if String.eqb (tc_name tc) Tools.ToArchitectAssistant
        then "enter_architect_assistant"
        else if String.eqb (tc_name tc) Tools.ToCoderAssistant
        then "enter_coder_assistant"
        else if String.eqb (tc_name tc) Tools.ToTesterAssistant
        then "enter_tester_assistant"
        else (name ++ "_tools")%string).
Proof.
  unfold PrimaryAssistant.route_assistant.
  rewrite tools_condition_app. simpl.
  rewrite last_item_app. simpl.
  destruct (String.eqb (tc_name tc) Tools.ToArchitectAssistant); [reflexivity |].
  destruct (String.eqb (tc_name tc) Tools.ToCoderAssistant); [reflexivity |].
  destruct (String.eqb (tc_name tc) Tools.ToTesterAssistant); reflexivity.
Qed.

Lemma lookup_handoffs (k : string) :
  Spec.lookup Spec.handoffs k
  = if String.eqb k Tools.ToArchitectAssistant then Some "architect_assistant"
    else if String.eqb k Tools.ToCoderAssistant then Some "coder_assistant"
    else if String.eqb k Tools.ToTesterAssistant then Some "tester_assistant"
    else None.
Proof.
  unfold Spec.handoffs. cbn [Spec.lookup].
  rewrite !(String.eqb_sym _ k). reflexivity.
Qed.

Lemma route_primary_as_specified (name : string) (ms : list Message)
    (m : Message) (ds : list string) (e : option PyException) :
  PrimaryAssistant.route_assistant name (mkState (ms ++ [m]) ds e)
  = Ok (Spec.coordinator_router name m).
Proof.
  destruct (has_tool_calls m) eqn:Hm.
  - destruct m as [t | [c [| tc rest]] | t i | r t]; try discriminate Hm.
    rewrite route_primary_calls. unfold Spec.coordinator_router.
    cbn [Spec.first_tool_call tool_calls hd_error].
    rewrite lookup_handoffs.
    destruct (String.eqb (tc_name tc) Tools.ToArchitectAssistant); [reflexivity |].
    destruct (String.eqb (tc_name tc) Tools.ToCoderAssistant); [reflexivity |].
    destruct (String.eqb (tc_name tc) Tools.ToTesterAssistant); reflexivity.
  - rewrite route_primary_no_calls by exact Hm.
    unfold Spec.coordinator_router.
    rewrite has_tool_calls_first in Hm.
    destruct (Spec.first_tool_call m); [discriminate Hm | reflexivity].
Qed.

(** C2: on every state with a last message the coordinator router returns
    normally, and its value is the one the specification words: [END] when
    the last message has no tool call, the "enter" node of the agent when the
    first tool call names a handoff, the coordinator's tool node otherwise. *)
Theorem C2_coordinator_router_total (name : string) (ms : list Message)
    (m : Message) (ds : list string) (e : option PyException) :
  PrimaryAssistant.route_assistant name (mkState (ms ++ [m]) ds e)
  = Ok (Spec.coordinator_router name m).
Proof.
  apply route_primary_as_specified.
Qed.

Example route_coder_handoff :
  PrimaryAssistant.route_assistant "primary_assistant"
    (mkState [HumanMessage "build me a REST API";
              AIMessage (mkAI (Text "") [mkToolCall "ToCoderAssistant" "{}" "call_1"])]
             [] None)
  = Ok "enter_coder_assistant".
Proof. reflexivity. Qed.

Example route_plain_answer :
  PrimaryAssistant.route_assistant "primary_assistant"
    (mkState [HumanMessage "hello"; AIMessage (mkAI (Text "Hi!") [])] [] None)
  = Ok END.
Proof. reflexivity. Qed.

Example route_empty_log :
  PrimaryAssistant.route_assistant "primary_assistant" (mkState [] [] None)
  = Raise (ValueError "No messages found in input state to tool_edge").
Proof. reflexivity. Qed.

(** Without any message there is no last message to route on: the router
    raises, and this is the only way it raises. *)
Lemma route_primary_raises_only_on_empty_log (name : string) (state : GraphState)
    (err : PyException) :
  PrimaryAssistant.route_assistant name state = Raise err ->
  messages state = []
  /\ err = ValueError "No messages found in input state to tool_edge".
Proof.
  destruct state as [msgs ds e].
  destruct (rev msgs) as [| m rms] eqn:Hrev.
  - intros H. apply (f_equal (@rev Message)) in Hrev.
    rewrite rev_involutive in Hrev. simpl in Hrev. subst msgs.
    split; [reflexivity |].
    unfold PrimaryAssistant.route_assistant, tools_condition in H. simpl in H.
    injection H as H. symmetry. exact H.
  - apply (f_equal (@rev Message)) in Hrev.
    rewrite rev_involutive in Hrev. simpl in Hrev. subst msgs.
    rewrite route_primary_as_specified. discriminate.
Qed.

Lemma not_handoff_eqb (k : string) :
  ~ In k Spec.handoff_names ->
  String.eqb k Tools.ToArchitectAssistant = false
  /\ String.eqb k Tools.ToCoderAssistant = false
  /\ String.eqb k Tools.ToTesterAssistant = false.
Proof.
  intros H. unfold Spec.handoff_names, Spec.handoffs in H. cbn [map fst] in H.
  repeat split; apply String.eqb_neq; intros E; apply H; subst k;
    cbn [In]; auto.
Qed.

(** C3 (as amended): when the last message has at least one tool call and
    the name of the first one is not a handoff identifier, whatever else it
    is, the coordinator router does not raise: it returns the coordinator's
    generic tool node. *)
Theorem C3_unmatched_call_goes_to_tools (name : string) (ms : list Message)
    (c : Content) (tc : ToolCall) (rest : list ToolCall) (ds : list string)
    (e : option PyException)
    (Hname : ~ In (tc_name tc) Spec.handoff_names) :
  PrimaryAssistant.route_assistant name
    (mkState (ms ++ [AIMessage (mkAI c (tc :: rest))]) ds e)
  = Ok (name ++ "_tools")%string.
Proof.
  rewrite route_primary_calls.
  destruct (not_handoff_eqb Hname) as [E1 [E2 E3]].
  rewrite E1, E2, E3. reflexivity.
Qed.

Lemma not_in_handoff_names_delete_branch :
  ~ In "delete_branch" Spec.handoff_names.
Proof.
  cbn. intros [H | [H | [H | []]]]; discriminate H.
Defined.

Lemma C3_unmatched_call_witness :
  ~ In "delete_branch" Spec.handoff_names
  /\ PrimaryAssistant.route_assistant "primary_assistant"
       (mkState [HumanMessage "tidy the repository";
                 AIMessage (mkAI (Text "") [mkToolCall "delete_branch" "{}" "call_9"])]
                [] None)
     = Ok "primary_assistant_tools".
Proof.
  split; [exact not_in_handoff_names_delete_branch |].
  exact (@C3_unmatched_call_goes_to_tools "primary_assistant"
           [HumanMessage "tidy the repository"] (Text "")
           (mkToolCall "delete_branch" "{}" "call_9") [] [] None
           not_in_handoff_names_delete_branch).
Defined.

(** C3 as stated fails: a tool call whose name is none of the handoff
    identifiers, nor the escalation signal, nor a tool bound to the
    coordinator, does not make the router raise. *)
Lemma C3_counterexample_no_routing_error :
  ~ (forall (name : string) (ms : list Message) (c : Content)
            (tcs : list ToolCall) (ds : list string) (e : option PyException),
        (exists tc, In tc tcs /\ ~ In (tc_name tc) Spec.known_tool_names) ->
        exists err,
          PrimaryAssistant.route_assistant name
            (mkState (ms ++ [AIMessage (mkAI c tcs)]) ds e) = Raise err).
Proof.
  intros H.
  destruct (H "primary_assistant" [HumanMessage "tidy the repository"] (Text "")
              [mkToolCall "delete_branch" "{}" "call_9"] [] None) as [err Herr].
  - exists (mkToolCall "delete_branch" "{}" "call_9"). split.
    + left. reflexivity.
    + cbn. intros [E | [E | [E | [E | []]]]]; discriminate E.
  - discriminate Herr.
Qed.

(** ** The declared topology *)

Lemma declared_targets_primary :
  Graph.declared_targets Graph.define_workflow "primary_assistant"
  = ["enter_device_assistant"; "enter_telco_contract_assistant";
     "primary_assistant_tools"; END].
Proof. reflexivity. Qed.

(** The sibling declarations: every value a specialised router can return is
    a declared target of its node. *)
Lemma secondary_branches_cover_their_routers :
  forallb Graph.branch_covers_router
    (filter (fun b => match Graph.b_router b with
                      | Graph.SecondaryRouter _ => true
                      | _ => false
                      end)
            (Graph.branches Graph.define_workflow)) = true
  /\ List.length (Graph.branches Graph.define_workflow) = 5.
Proof. split; reflexivity. Qed.

(** C1, evaluated on the code: the coordinator router returns
    "enter_architect_assistant", "enter_coder_assistant" and
    "enter_tester_assistant" on handoff tool calls, and none of the three is
    among the conditional-edge targets that [define_workflow] declares for
    the node "primary_assistant"; the two "enter" targets that are declared
    are not nodes of the graph. *)
Theorem C1_router_targets_not_declared :
  let declared := Graph.declared_targets Graph.define_workflow "primary_assistant" in
  let handoff n := mkState [HumanMessage "build me a REST API";
                            AIMessage (mkAI (Text "") [mkToolCall n "{}" "call_1"])]
                           [] None in
  PrimaryAssistant.route_assistant "primary_assistant" (handoff "ToArchitectAssistant")
    = Ok "enter_architect_assistant"
  /\ PrimaryAssistant.route_assistant "primary_assistant" (handoff "ToCoderAssistant")
    = Ok "enter_coder_assistant"
  /\ PrimaryAssistant.route_assistant "primary_assistant" (handoff "ToTesterAssistant")
    = Ok "enter_tester_assistant"
  /\ Graph.mem "enter_architect_assistant" declared = false
  /\ Graph.mem "enter_coder_assistant" declared = false
  /\ Graph.mem "enter_tester_assistant" declared = false
  /\ forallb (fun b => if String.eqb (Graph.b_source b) "primary_assistant"
                       then Graph.branch_covers_router b else true)
             (Graph.branches Graph.define_workflow) = false
  /\ Graph.mem "enter_device_assistant"
       (map fst (Graph.nodes Graph.define_workflow)) = false
  /\ Graph.mem "enter_telco_contract_assistant"
       (map fst (Graph.nodes Graph.define_workflow)) = false.
Proof.
  cbv zeta. repeat split; reflexivity.
Qed.

(** ** Sequences of pushes and pops *)

Section Sequences.
Import Ops.

Lemma run_cons (start : list string) (o : Op) (ops : list Op) :
  run start (o :: ops) = run (update_dialog_stack start o) ops.
Proof. reflexivity. Qed.

Lemma run_snoc (start : list string) (ops : list Op) (o : Op) :
  run start (ops ++ [o]) = update_dialog_stack (run start ops) o.
Proof. unfold run. rewrite fold_left_app. reflexivity. Qed.

Lemma drop_n_zero (l : list string) : drop_n 0 l = l.
Proof.
  unfold drop_n. rewrite Nat.sub_0_r. apply firstn_all.
Qed.

Lemma drop_n_drop_last (p : nat) (l : list string) :
  drop_n p (drop_last l) = drop_n (S p) l.
Proof.
  unfold drop_n. rewrite drop_last_length. unfold drop_last.
  rewrite firstn_firstn. f_equal. lia.
Qed.

Lemma drop_n_snoc (q : nat) (l : list string) (x : string) :
  drop_n (S q) (l ++ [x]) = drop_n q l.
Proof.
  unfold drop_n. rewrite length_app. simpl.
  replace (List.length l + 1 - S q) with (List.length l - q) by lia.
  rewrite firstn_app.
  replace (List.length l - q - List.length l) with 0 by lia.
  simpl. apply app_nil_r.
Qed.

(** Each step appends one entry, removes the last one, or does nothing. *)
Lemma reducer_step_shape (left : list string) (right : Op) :
  (right = None /\ update_dialog_stack left right = left)
  \/ (is_pop right = true /\ update_dialog_stack left right = drop_last left)
  \/ (exists x, right = Some x /\ is_push right = true
                /\ update_dialog_stack left right = left ++ [x]).
Proof.
  destruct right as [r |]; [| left; split; reflexivity].
  right. unfold update_dialog_stack, is_pop, is_push.
  destruct (String.eqb r "pop").
  - left. split; reflexivity.
  - right. exists r. repeat split; reflexivity.
Qed.

(** The length, when no pop meets an empty stack. *)
Lemma run_length (ops : list Op) :
  forall start,
    no_underflow (List.length start) ops = true ->
    List.length (run start ops) + pops ops = List.length start + pushes ops.
Proof.
  induction ops as [| o ops IH]; intros start H.
  - unfold pops, pushes. simpl. lia.
  - rewrite run_cons. destruct o as [r |].
    + simpl in H. unfold pops, pushes, update_dialog_stack. simpl.
      destruct (String.eqb r "pop") eqn:E; simpl.
      * destruct (List.length start) as [| d] eqn:Hlen; [discriminate H |].
        assert (Hd : List.length (drop_last start) = d)
          by (rewrite drop_last_length; lia).
        rewrite <- Hd in H. specialize (IH _ H).
        unfold pops, pushes in IH. lia.
      * assert (Hs : List.length (start ++ [r]) = S (List.length start))
          by (rewrite length_app; simpl; lia).
        rewrite <- Hs in H. specialize (IH _ H).
        unfold pops, pushes in IH. lia.
    + simpl in H. specialize (IH _ H).
      unfold pops, pushes in *. simpl. exact IH.
Qed.

(** The top, read off the sequence: below [p] further pops lies the latest
    standing push, or what as many pops leave of the starting stack. *)
Lemma run_scan (start : list string) (ops : list Op) :
  forall p,
    match scan (rev ops) p with
    | inl x => last_item (drop_n p (run start ops)) = Ok x
    | inr k => drop_n p (run start ops) = drop_n k start
    end.
Proof.
  induction ops as [| o ops IH] using rev_ind; intros p.
  - reflexivity.
  - rewrite rev_app_distr, run_snoc. simpl.
    destruct o as [r |]; [| exact (IH p)].
    unfold update_dialog_stack.
    destruct (String.eqb r "pop").
    + specialize (IH (S p)). rewrite drop_n_drop_last. exact IH.
    + destruct p as [| q].
      * rewrite drop_n_zero. apply last_item_app.
      * specialize (IH q). rewrite drop_n_snoc. exact IH.
Qed.

(** The result is a prefix of the starting stack, in its order, followed
    by values that the sequence pushed. *)
Lemma run_prefix_then_pushed (start : list string) (ops : list Op) :
  exists k pushed,
    k <= List.length start
    /\ run start ops = firstn k start ++ pushed
    /\ Forall (fun x => In (Some x) ops /\ x <> "pop") pushed.
Proof.
  induction ops as [| o ops IH] using rev_ind.
  - exists (List.length start), []. split; [lia |]. split.
    + simpl. rewrite firstn_all, app_nil_r. reflexivity.
    + constructor.
  - destruct IH as [k [pushed [Hk [Hrun Hall]]]].
    assert (Hweak : Forall (fun x => In (Some x) (ops ++ [o]) /\ x <> "pop") pushed).
    { eapply Forall_impl; [| exact Hall].
      intros x [Hin Hx]. split; [apply in_or_app; left; exact Hin | exact Hx]. }
    rewrite run_snoc, Hrun.
    destruct o as [r |]; [| exists k, pushed; repeat split; assumption].
    unfold update_dialog_stack.
    destruct (String.eqb_spec r "pop") as [E | E].
    + destruct pushed as [| y ys] using rev_ind.
      * exists (k - 1), []. split; [lia |]. split; [| constructor].
        rewrite !app_nil_r. unfold drop_last.
        rewrite length_firstn, firstn_firstn. f_equal. lia.
      * exists k, ys. split; [exact Hk |]. split.
        -- rewrite app_assoc. apply drop_last_app.
        -- apply Forall_app in Hweak. exact (proj1 Hweak).
    + exists k, (pushed ++ [r]). split; [exact Hk |]. split.
      * rewrite app_assoc. reflexivity.
      * apply Forall_app. split; [exact Hweak |].
        constructor; [| constructor].
        split; [apply in_or_app; right; left; reflexivity | exact E].
Qed.

(** Pushes first, then no more pops than pushes: no pop meets an empty
    stack. *)
Lemma no_underflow_pops (m depth : nat) :
  m <= depth -> no_underflow depth (repeat (Some "pop") m) = true.
Proof.
  revert depth. induction m as [| m IH]; intros depth H; [reflexivity |].
  simpl. destruct depth as [| d]; [lia |]. apply IH. lia.
Qed.

Lemma no_underflow_pushes_then_pops (xs : list string) :
  forall depth m,
    Forall (fun x => x <> "pop") xs ->
    m <= depth + List.length xs ->
    no_underflow depth (map Some xs ++ repeat (Some "pop") m) = true.
Proof.
  induction xs as [| x xs IH]; intros depth m Hxs Hm.
  - simpl. apply no_underflow_pops. simpl in Hm. lia.
  - inversion Hxs as [| ? ? Hx Hrest]; subst. simpl.
    destruct (String.eqb_spec x "pop") as [E | _]; [contradiction |].
    apply IH; [exact Hrest | simpl in Hm; lia].
Qed.

End Sequences.

(** C6 (as amended): from every starting stack and along every sequence of
    N pushes and M pops (and no-ops) in which no pop meets an empty stack,
    the resulting stack has exactly N - M more entries than the starting
    one; its top is the most recently pushed value not yet popped, and when
    every pushed value has been popped it is what the remaining pops leave
    of the starting stack; the result is a prefix of the starting stack, in
    its order, followed by pushed values. *)
Theorem C6_balanced_sequences (start : list string) (ops : list Ops.Op)
    (Hsafe : Ops.no_underflow (List.length start) ops = true) :
  Ops.pops ops <= List.length start + Ops.pushes ops
  /\ List.length (Ops.run start ops)
     = List.length start + Ops.pushes ops - Ops.pops ops
  /\ match Ops.most_recent_unpopped ops with
     | inl x => last_item (Ops.run start ops) = Ok x
     | inr k => Ops.run start ops = Ops.drop_n k start
     end
  /\ exists k pushed,
       k <= List.length start
       /\ Ops.run start ops = firstn k start ++ pushed
       /\ Forall (fun x => In (Some x) ops /\ x <> "pop") pushed.
Proof.
  pose proof (run_length ops start Hsafe) as Hlen.
  split; [lia |]. split; [lia |]. split.
  - pose proof (run_scan start ops 0) as Htop.
    unfold Ops.most_recent_unpopped.
    destruct (Ops.scan (rev ops) 0); rewrite drop_n_zero in Htop; exact Htop.
  - apply run_prefix_then_pushed.
Qed.

Lemma C6_balanced_sequences_witness :
  let start := ["architect_assistant"] in
  let ops := [Some "coder_assistant"; None; Some "pop"; Some "pop";
              Some "tester_assistant"] in
  Ops.no_underflow (List.length start) ops = true
  /\ Ops.pushes ops = 2 /\ Ops.pops ops = 2
  /\ List.length (Ops.run start ops) = 1
  /\ last_item (Ops.run start ops) = Ok "tester_assistant".
Proof.
  cbv zeta.
  destruct (@C6_balanced_sequences ["architect_assistant"]
              [Some "coder_assistant"; None; Some "pop"; Some "pop";
               Some "tester_assistant"] eq_refl)
    as [_ [Hlen [Htop _]]].
  split; [reflexivity |]. split; [reflexivity |]. split; [reflexivity |].
  split; [exact Hlen | exact Htop].
Defined.

(** C6 as stated fails: with no more pops than pushes, a pop that comes
    while the stack is empty removes nothing, and the count is off. *)
Lemma C6_counterexample_pop_before_push :
  ~ (forall (start : list string) (ops : list Ops.Op),
        Ops.pops ops <= Ops.pushes ops ->
        List.length (Ops.run start ops)
        = List.length start + (Ops.pushes ops - Ops.pops ops)).
Proof.
  intros H.
  specialize (H [] [Some "pop"; Some "coder_assistant"]).
  cbv in H. specialize (H (le_n 1)). discriminate H.
Qed.

(** ** The agent invoker *)

Lemma needs_retry_false_iff (r : AIResult) :
  Assistant.needs_retry r = false <-> Spec.acceptable r.
Proof.
  unfold Assistant.needs_retry, Spec.acceptable.
  destruct r as [c tcs]. simpl.
  destruct tcs as [| tc rest].
  - split.
    + intros H. right. destruct c as [s | [| b bs]]; simpl in *.
      * destruct (String.eqb_spec s ""); [discriminate H | assumption].
      * discriminate H.
      * destruct (dict_get b "text") as [t |]; [| discriminate H].
        exists t. split; [reflexivity |].
        destruct (String.eqb_spec t ""); [discriminate H | assumption].
    + intros [H | H]; [contradiction H; reflexivity |].
      destruct c as [s | [| b bs]]; simpl in *.
      * destruct (String.eqb_spec s ""); [contradiction | reflexivity].
      * contradiction.
      * destruct H as [t [Ht Hne]]. rewrite Ht.
        destruct (String.eqb_spec t ""); [contradiction | reflexivity].
  - split; [intros _; left; discriminate | reflexivity].
Qed.

Lemma needs_retry_empty_answer : Assistant.needs_retry Spec.empty_answer = true.
Proof. reflexivity. Qed.

Section Invoker.
Import Assistant.
Variable M : Type.
Variable runnable : Runnable M.

(** The loop returns at the first answer that is not retried, given fuel for
    that many invocations. *)
Lemma call_loop_returns (k : nat) :
  forall fuel m state done,
    (forall j, j < k -> needs_retry (nth_result runnable j m state) = true) ->
    needs_retry (nth_result runnable k m state) = false ->
    k < fuel ->
    exists m',
      call_loop runnable fuel m state done
      = Some {| returned := {| d_messages := [AIMessage (nth_result runnable k m state)];
                               d_dialog_state := None |};
                model_after := m';
                invocations := done + S k |}.
Proof.
  induction k as [| k IH]; intros fuel m state done Hbefore Hat Hfuel.
  - destruct fuel as [| fuel]; [lia |].
    simpl in *. destruct (invoke runnable m state) as [result m'].
    simpl in Hat. rewrite Hat. exists m'.
    replace (done + 1) with (S done) by lia. reflexivity.
  - destruct fuel as [| fuel]; [lia |].
    pose proof (Hbefore 0 ltac:(lia)) as H0.
    simpl in H0, Hat. simpl.
    destruct (invoke runnable m state) as [result m'] eqn:Hinv.
    simpl in H0, Hat. rewrite H0.
    destruct (IH fuel m' (with_directive state) (S done)) as [m'' Hcall].
    + intros j Hj. pose proof (Hbefore (S j) ltac:(lia)) as HSj.
      simpl in HSj. rewrite Hinv in HSj. exact HSj.
    + exact Hat.
    + lia.
    + exists m''. rewrite Hcall.
      replace (S done + S k) with (done + S (S k)) by lia. reflexivity.
Qed.

(** What the loop returned, it returned at the first answer not retried. *)
Lemma call_loop_returned (fuel : nat) :
  forall m state done o,
    call_loop runnable fuel m state done = Some o ->
    exists k,
      k < fuel
      /\ (forall j, j < k -> needs_retry (nth_result runnable j m state) = true)
      /\ needs_retry (nth_result runnable k m state) = false
      /\ returned o = {| d_messages := [AIMessage (nth_result runnable k m state)];
                         d_dialog_state := None |}
      /\ invocations o = done + S k.
Proof.
  induction fuel as [| fuel IH]; intros m state done o H; [discriminate H |].
  simpl in H. destruct (invoke runnable m state) as [result m'] eqn:Hinv.
  destruct (needs_retry result) eqn:Hretry.
  - destruct (IH _ _ _ _ H) as [k [Hk [Hbefore [Hat [Hret Hinvs]]]]].
    exists (S k). split; [lia |]. simpl. rewrite Hinv. simpl.
    split; [| split; [exact Hat | split; [exact Hret | lia]]].
    intros [| j] Hj; simpl; rewrite Hinv; simpl; [exact Hretry |].
    apply Hbefore. lia.
  - injection H as H. subst o. exists 0. simpl. rewrite Hinv. simpl.
    split; [lia |]. split; [intros j Hj; lia |].
    split; [exact Hretry |]. split; [reflexivity | lia].
Qed.

(** While every answer is retried, no fuel makes the loop return. *)
Lemma call_loop_runs_on (fuel : nat) (m : M) (state : GraphState) (done : nat) :
  (forall k, needs_retry (nth_result runnable k m state) = true) ->
  call_loop runnable fuel m state done = None.
Proof.
  intros Hall.
  destruct (call_loop runnable fuel m state done) as [o |] eqn:H; [| reflexivity].
  destruct (call_loop_returned _ _ _ _ H) as [k [_ [_ [Hat _]]]].
  rewrite Hall in Hat. discriminate Hat.
Qed.

End Invoker.

Lemma nth_result_scripted (k : nat) :
  forall script state,
    Assistant.nth_result Models.scripted k script state
    = nth k script Spec.empty_answer.
Proof.
  induction k as [| k IH]; intros [| r rest] state; simpl; try reflexivity.
  - rewrite IH. destruct k; reflexivity.
  - apply IH.
Qed.

(** C4: whenever the invoker returns, it returns exactly one message, the
    answer of its last invocation; that message carries at least one tool
    call or a content with text; merged into the state it extends the log by
    that one message and leaves the stack alone; the retry directive is not
    part of what is returned.  And for a model whose first two answers are
    empty and whose third has text, any fuel of three or more makes the
    invoker return after exactly three invocations, the log gaining the
    third answer and nothing else. *)
Theorem C4_invoker_returns_one_accepted_message :
  (forall (M : Type) (runnable : Runnable M) (fuel : nat) (m : M)
          (state : GraphState) (o : Assistant.Outcome M),
      Assistant.call runnable fuel m state = Some o ->
      exists r,
        Assistant.returned o = {| d_messages := [AIMessage r]; d_dialog_state := None |}
        /\ r = Assistant.nth_result runnable (Assistant.invocations o - 1) m state
        /\ Spec.acceptable r
        /\ messages (merge state (Assistant.returned o)) = messages state ++ [AIMessage r]
        /\ dialog_state (merge state (Assistant.returned o)) = dialog_state state
        /\ ~ In Assistant.directive (d_messages (Assistant.returned o)))
  /\ (forall (M : Type) (runnable : Runnable M) (m : M) (state : GraphState)
             (valid : AIResult) (fuel : nat),
      Assistant.nth_result runnable 0 m state = Spec.empty_answer ->
      Assistant.nth_result runnable 1 m state = Spec.empty_answer ->
      Assistant.nth_result runnable 2 m state = valid ->
      Spec.carries_text (content valid) ->
      3 <= fuel ->
      exists o,
        Assistant.call runnable fuel m state = Some o
        /\ Assistant.invocations o = 3
        /\ Assistant.returned o = {| d_messages := [AIMessage valid];
                                     d_dialog_state := None |}
        /\ messages (merge state (Assistant.returned o))
           = messages state ++ [AIMessage valid]
        /\ List.length (messages (merge state (Assistant.returned o)))
           = S (List.length (messages state))).
Proof.
  split.
  - intros M runnable fuel m state o H.
    destruct (call_loop_returned _ _ _ _ _ H) as [k [_ [_ [Hat [Hret Hinv]]]]].
    exists (Assistant.nth_result runnable k m state).
    split; [exact Hret |].
    split; [rewrite Hinv; f_equal; lia |].
    split; [apply needs_retry_false_iff; exact Hat |].
    rewrite Hret. unfold merge, add_messages. simpl.
    split; [reflexivity |]. split; [reflexivity |].
    intros [E | []]. discriminate E.
  - intros M runnable m state valid fuel H0 H1 H2 Htext Hfuel.
    destruct (@call_loop_returns M runnable 2 fuel m state 0) as [m' Hcall].
    + intros [| [| j]] Hj; [rewrite H0 | rewrite H1 | lia]; reflexivity.
    + rewrite H2. apply needs_retry_false_iff. right. exact Htext.
    + lia.
    + rewrite H2 in Hcall. eexists. split; [exact Hcall |]. simpl.
      split; [reflexivity |]. split; [reflexivity |].
      unfold add_messages. split; [reflexivity |].
      rewrite length_app. simpl. lia.
Qed.

Lemma C4_invoker_witness :
  let script := [Spec.empty_answer; Spec.empty_answer;
                 Models.text_answer "Here is the plan."] in
  let state := mkState [HumanMessage "build me a REST API"] [] None in
  exists o,
    Assistant.call Models.scripted 3 script state = Some o
    /\ Assistant.invocations o = 3
    /\ messages (merge state (Assistant.returned o))
       = [HumanMessage "build me a REST API";
          AIMessage (Models.text_answer "Here is the plan.")]
    /\ Spec.acceptable (Models.text_answer "Here is the plan.").
Proof.
  cbv zeta.
  assert (Htext : Spec.carries_text (content (Models.text_answer "Here is the plan.")))
    by (simpl; discriminate).
  destruct (proj2 C4_invoker_returns_one_accepted_message
              (list AIResult) Models.scripted
              [Spec.empty_answer; Spec.empty_answer;
               Models.text_answer "Here is the plan."]
              (mkState [HumanMessage "build me a REST API"] [] None)
              (Models.text_answer "Here is the plan.") 3
              eq_refl eq_refl eq_refl Htext (le_n 3))
    as [o [Hcall [Hinv [Hret [Hlog _]]]]].
  exists o. split; [exact Hcall |]. split; [exact Hinv |]. split; [exact Hlog |].
  destruct (proj1 C4_invoker_returns_one_accepted_message
              (list AIResult) Models.scripted 3 _ _ o Hcall)
    as [r [Hr [_ [Hacc _]]]].
  rewrite Hret in Hr. injection Hr as Hr. subst r. exact Hacc.
Defined.

(** C9: the loop returns, for some fuel, if and only if some invocation of
    the call answers with a tool call or a content with text; when every
    invocation answers with no tool call and empty content, no fuel makes it
    return; and for every number [n] there is a model on which the loop
    makes [n] retries before it returns, so no bound is built in. *)
Theorem C9_retry_loop_unbounded :
  (forall (M : Type) (runnable : Runnable M) (m : M) (state : GraphState),
      (exists fuel o, Assistant.call runnable fuel m state = Some o)
      <-> (exists k, Spec.acceptable (Assistant.nth_result runnable k m state)))
  /\ (forall (M : Type) (runnable : Runnable M) (m : M) (state : GraphState),
      (forall k, Assistant.nth_result runnable k m state = Spec.empty_answer) ->
      forall fuel, Assistant.call runnable fuel m state = None)
  /\ (forall (n : nat) (state : GraphState),
      exists script fuel o,
        Assistant.call Models.scripted fuel script state = Some o
        /\ Assistant.invocations o = S n).
Proof.
  split; [| split].
  - intros M runnable m state. split.
    + intros [fuel [o H]].
      destruct (call_loop_returned _ _ _ _ _ H) as [k [_ [_ [Hat _]]]].
      exists k. apply needs_retry_false_iff. exact Hat.
    + intros [k Hk]. apply needs_retry_false_iff in Hk.
      (* the first answer that is not retried, at or before [k] *)
      assert (Hfirst : exists k0,
                 (forall j, j < k0 ->
                    Assistant.needs_retry (Assistant.nth_result runnable j m state) = true)
                 /\ Assistant.needs_retry (Assistant.nth_result runnable k0 m state) = false).
      { clear -Hk. induction k as [k IH] using lt_wf_ind.
        destruct (existsb (fun j => negb (Assistant.needs_retry
                                            (Assistant.nth_result runnable j m state)))
                          (seq 0 k)) eqn:E.
        - apply existsb_exists in E. destruct E as [j [Hj Hnr]].
          apply in_seq in Hj. apply (IH j); [lia |].
          destruct (Assistant.needs_retry (Assistant.nth_result runnable j m state));
            [discriminate Hnr | reflexivity].
        - exists k. split; [| exact Hk]. intros j Hj.
          destruct (Assistant.needs_retry (Assistant.nth_result runnable j m state)) eqn:Ej;
            [reflexivity |].
          assert (Hex : existsb (fun j => negb (Assistant.needs_retry
                                            (Assistant.nth_result runnable j m state)))
                          (seq 0 k) = true).
          { apply existsb_exists. exists j. split; [apply in_seq; lia |].
            rewrite Ej. reflexivity. }
          rewrite Hex in E. discriminate E. }
      destruct Hfirst as [k0 [Hbefore Hat]].
      destruct (@call_loop_returns M runnable k0 (S k0) m state 0 Hbefore Hat)
        as [m' Hcall]; [lia |].
      exists (S k0). eexists. exact Hcall.
  - intros M runnable m state Hall fuel.
    apply call_loop_runs_on. intros k. rewrite Hall. reflexivity.
  - intros n state.
    exists (repeat Spec.empty_answer n ++ [Models.text_answer "done"]), (S n).
    destruct (@call_loop_returns _ Models.scripted n (S n)
                (repeat Spec.empty_answer n ++ [Models.text_answer "done"]) state 0)
      as [m' Hcall].
    + intros j Hj. rewrite nth_result_scripted.
      rewrite app_nth1 by (rewrite repeat_length; exact Hj).
      rewrite nth_repeat_lt by exact Hj. reflexivity.
    + rewrite nth_result_scripted.
      rewrite app_nth2 by (rewrite repeat_length; lia).
      rewrite repeat_length, Nat.sub_diag. reflexivity.
    + lia.
    + eexists. split; [exact Hcall | reflexivity].
Qed.

Lemma C9_retry_loop_witness :
  (forall fuel,
      Assistant.call Models.always_empty fuel tt
        (mkState [HumanMessage "build me a REST API"] [] None) = None)
  /\ Assistant.call Models.always_empty 1000 tt
       (mkState [HumanMessage "build me a REST API"] [] None) = None.
Proof.
  assert (Hall : forall k,
             Assistant.nth_result Models.always_empty k tt
               (mkState [HumanMessage "build me a REST API"] [] None)
             = Spec.empty_answer).
  { intros k. generalize (mkState [HumanMessage "build me a REST API"] [] None).
    induction k as [| k IH]; intros st; [reflexivity | apply IH]. }
  pose proof (proj1 (proj2 C9_retry_loop_unbounded) unit Models.always_empty tt
                (mkState [HumanMessage "build me a REST API"] [] None) Hall) as H.
  split; [exact H | exact (H 1000)].
Defined.

(** * Further properties of the code *)

(** ** The specialised router *)

Lemma existsb_name_mem (k : string) (tcs : list ToolCall) :
  existsb (fun tc => String.eqb (tc_name tc) k) tcs
  = Graph.mem k (map tc_name tcs).
Proof.
  unfold Graph.mem. induction tcs as [| tc rest IH]; [reflexivity |].
  simpl. rewrite IH, String.eqb_sym. reflexivity.
Qed.

Lemma mem_true_iff (x : string) (l : list string) :
  Graph.mem x l = true <-> In x l.
Proof.
  unfold Graph.mem. rewrite existsb_exists. split.
  - intros [y [Hy E]]. apply String.eqb_eq in E. subst y. exact Hy.
  - intros H. exists x. split; [exact H | apply String.eqb_refl].
Qed.

Lemma route_secondary_by_names (name : string) (ms : list Message)
    (m : Message) (ds : list string) (e : option PyException) :
  SecondaryAssistant.route_assistant name (mkState (ms ++ [m]) ds e)
  = Ok (match Aux.call_names m with
        | [] => END
        | _ :: _ => if Graph.mem Tools.CompleteOrEscalate (Aux.call_names m)
                    then "leave_skill"
                    else (name ++ "_tools")%string
        end).
Proof.
  unfold SecondaryAssistant.route_assistant.
  rewrite tools_condition_app.
  destruct m as [t | [c [| tc rest]] | t i | r t]; try reflexivity.
  cbn [has_tool_calls tool_calls bind messages].
  change (String.eqb "tools" END) with false. cbv iota.
  rewrite last_item_app. cbn [bind get_tool_calls tool_calls Aux.call_names].
  rewrite existsb_name_mem.
  destruct (Graph.mem Tools.CompleteOrEscalate (map tc_name (tc :: rest)));
    reflexivity.
Qed.

(** The specialised router on a state with a last message: without a tool
    call it ends the turn; with the escalation signal at any position among
    the tool calls it leaves the skill; with tool calls and no escalation
    signal it goes to the assistant's own tool node.  It never raises. *)
Theorem secondary_router_cases (name : string) (ms : list Message)
    (m : Message) (ds : list string) (e : option PyException) :
  (Aux.call_names m = [] ->
     SecondaryAssistant.route_assistant name (mkState (ms ++ [m]) ds e) = Ok END)
  /\ (In Tools.CompleteOrEscalate (Aux.call_names m) ->
     SecondaryAssistant.route_assistant name (mkState (ms ++ [m]) ds e)
     = Ok "leave_skill")
  /\ (Aux.call_names m <> [] ->
      ~ In Tools.CompleteOrEscalate (Aux.call_names m) ->
     SecondaryAssistant.route_assistant name (mkState (ms ++ [m]) ds e)
     = Ok (name ++ "_tools")%string).
Proof.
  rewrite route_secondary_by_names. split; [| split].
  - intros H. rewrite H. reflexivity.
  - intros H. destruct (Aux.call_names m) as [| n ns] eqn:E; [contradiction H |].
    apply mem_true_iff in H. rewrite H. reflexivity.
  - intros Hne Hnot. destruct (Aux.call_names m) as [| n ns] eqn:E;
      [contradiction Hne; reflexivity |].
    destruct (Graph.mem Tools.CompleteOrEscalate (n :: ns)) eqn:Hm; [| reflexivity].
    apply mem_true_iff in Hm. contradiction.
Qed.

Lemma secondary_router_cases_witness :
  SecondaryAssistant.route_assistant "coder_assistant"
    (mkState [HumanMessage "build me a REST API";
              AIMessage (mkAI (Text "")
                           [mkToolCall "write_file" "{}" "call_1";
                            mkToolCall "CompleteOrEscalate" "{}" "call_2"])]
             ["coder_assistant"] None)
  = Ok "leave_skill".
Proof.
  apply (proj1 (proj2 (@secondary_router_cases "coder_assistant"
           [HumanMessage "build me a REST API"]
           (AIMessage (mkAI (Text "")
                           [mkToolCall "write_file" "{}" "call_1";
                            mkToolCall "CompleteOrEscalate" "{}" "call_2"]))
           ["coder_assistant"] None))).
  simpl. right. left. reflexivity.
Defined.

(** For each of the three specialised assistants of [define_workflow], the
    value its router returns is always one of the conditional-edge targets
    declared for its node, and is [END] or a registered node. *)
Theorem secondary_router_value_is_declared (name : string) (ms : list Message)
    (m : Message) (ds : list string) (e : option PyException)
    (Hname : In name Graph.secondary_assistants) :
  exists target,
    SecondaryAssistant.route_assistant name (mkState (ms ++ [m]) ds e) = Ok target
    /\ Graph.mem target (Graph.declared_targets Graph.define_workflow name) = true
    /\ (target = END
        \/ Graph.mem target (Aux.node_names Graph.define_workflow) = true).
Proof.
  rewrite route_secondary_by_names. eexists. split; [reflexivity |].
  destruct Hname as [E | [E | [E | []]]]; subst name;
    destruct (Aux.call_names m) as [| n ns];
    try (split; [reflexivity | left; reflexivity]);
    destruct (Graph.mem Tools.CompleteOrEscalate (n :: ns));
    (split; [reflexivity | right; reflexivity]).
Qed.

Lemma secondary_router_value_is_declared_witness :
  exists target,
    SecondaryAssistant.route_assistant "tester_assistant"
      (mkState [AIMessage (mkAI (Text "") [mkToolCall "run_tests" "{}" "call_1"])]
               ["tester_assistant"] None) = Ok target
    /\ Graph.mem target
         (Graph.declared_targets Graph.define_workflow "tester_assistant") = true
    /\ (target = END
        \/ Graph.mem target (Aux.node_names Graph.define_workflow) = true).
Proof.
  apply (@secondary_router_value_is_declared "tester_assistant" []
           (AIMessage (mkAI (Text "") [mkToolCall "run_tests" "{}" "call_1"]))
           ["tester_assistant"] None).
  simpl. right. right. left. reflexivity.
Defined.

(** The specialised router reads nothing but the names of the tool calls of
    the last message: two states whose last messages carry the same names in
    the same order get the same route, whatever the earlier messages, the
    stack, the contents, the ids and the arguments (the [cancel] flag of the
    escalation signal among them). *)
Theorem secondary_router_reads_names_only (name : string)
    (ms ms' : list Message) (m m' : Message) (ds ds' : list string)
    (e e' : option PyException)
    (Hnames : Aux.call_names m = Aux.call_names m') :
  SecondaryAssistant.route_assistant name (mkState (ms ++ [m]) ds e)
  = SecondaryAssistant.route_assistant name (mkState (ms' ++ [m']) ds' e').
Proof.
  rewrite !route_secondary_by_names, Hnames. reflexivity.
Qed.

Lemma secondary_router_reads_names_only_witness :
  SecondaryAssistant.route_assistant "coder_assistant"
    (mkState [AIMessage (mkAI (Text "")
                [mkToolCall "CompleteOrEscalate" "{cancel: true}" "call_1"])]
             ["coder_assistant"] None)
  = SecondaryAssistant.route_assistant "coder_assistant"
    (mkState [HumanMessage "keep going";
              AIMessage (mkAI (Text "I can try using a different tool")
                [mkToolCall "CompleteOrEscalate" "{cancel: false}" "call_7"])]
             [] None).
Proof.
  exact (@secondary_router_reads_names_only "coder_assistant"
           [] [HumanMessage "keep going"]
           (AIMessage (mkAI (Text "")
                [mkToolCall "CompleteOrEscalate" "{cancel: true}" "call_1"]))
           (AIMessage (mkAI (Text "I can try using a different tool")
                [mkToolCall "CompleteOrEscalate" "{cancel: false}" "call_7"]))
           ["coder_assistant"] [] None None eq_refl).
Defined.

(** The coordinator router reads nothing but the name of the first tool call
    of the last message: a handoff or an escalation signal in any later
    position has no effect on the route. *)
Theorem primary_router_reads_first_name_only (name : string)
    (ms ms' : list Message) (m m' : Message) (ds ds' : list string)
    (e e' : option PyException)
    (Hfirst : hd_error (Aux.call_names m) = hd_error (Aux.call_names m')) :
  PrimaryAssistant.route_assistant name (mkState (ms ++ [m]) ds e)
  = PrimaryAssistant.route_assistant name (mkState (ms' ++ [m']) ds' e').
Proof.
  rewrite !route_primary_as_specified. f_equal.
  unfold Spec.coordinator_router.
  assert (Hn : forall x, option_map tc_name (Spec.first_tool_call x)
                         = hd_error (Aux.call_names x)).
  { intros [t | [c [| tc rest]] | t i | r t]; reflexivity. }
  pose proof (Hn m) as H1. pose proof (Hn m') as H2.
  rewrite <- H1, <- H2 in Hfirst.
  destruct (Spec.first_tool_call m) as [tc |], (Spec.first_tool_call m') as [tc' |];
    simpl in Hfirst; try discriminate Hfirst; [| reflexivity].
  injection Hfirst as Hfirst. rewrite Hfirst. reflexivity.
Qed.

Lemma primary_router_reads_first_name_only_witness :
  PrimaryAssistant.route_assistant "primary_assistant"
    (mkState [AIMessage (mkAI (Text "")
                [mkToolCall "web_search" "{}" "call_1";
                 mkToolCall "ToCoderAssistant" "{}" "call_2"])] [] None)
  = PrimaryAssistant.route_assistant "primary_assistant"
    (mkState [AIMessage (mkAI (Text "") [mkToolCall "web_search" "{}" "call_3"])]
             [] None).
Proof.
  exact (@primary_router_reads_first_name_only "primary_assistant" [] []
           (AIMessage (mkAI (Text "")
                [mkToolCall "web_search" "{}" "call_1";
                 mkToolCall "ToCoderAssistant" "{}" "call_2"]))
           (AIMessage (mkAI (Text "") [mkToolCall "web_search" "{}" "call_3"]))
           [] [] None None eq_refl).
Defined.

(** ** The transition handlers *)

Lemma last_item_inv (A : Type) (l : list A) (x : A) :
  last_item l = Ok x -> exists front, l = front ++ [x].
Proof.
  unfold last_item. intros H.
  destruct (rev l) as [| y rl] eqn:E; [discriminate H |].
  injection H as H. subst y. exists (rev rl).
  apply (f_equal (@rev A)) in E. rewrite rev_involutive in E. exact E.
Qed.

Lemma route_to_workflow_top (ms : list Message) (ds : list string) (top : string)
    (e : option PyException) :
  route_to_workflow (mkState ms (ds ++ [top]) e) = top.
Proof.
  unfold route_to_workflow. simpl. rewrite rev_app_distr. reflexivity.
Qed.

(** The declarations that follow the loop, put after the loop's, are the
    topology that [Graph.define_workflow] holds. *)
Lemma after_loop_declares_the_topology :
  Build.after_loop
    (fold_left Graph.add_secondary Graph.secondary_assistants Graph.empty)
  = Graph.define_workflow.
Proof. reflexivity. Qed.

(** No entry node is ever made.  [TypedDict], the annotation of the nested
    function, is not a name that [utils.py] binds, so [create_entry_node]
    raises a [NameError] whatever its arguments; the loop of
    [define_workflow] raises it at its first assistant, whatever the list of
    assistants it goes through and the builder it starts from; and so does
    [define_workflow] itself. *)
Theorem create_entry_node_raises_name_error :
  (forall assistant_name new_dialog_state,
      create_entry_node assistant_name new_dialog_state
      = Raise (NameError "name 'TypedDict' is not defined"))
  /\ (forall name rest g,
      Build.secondary_loop (name :: rest) g
      = Raise (NameError "name 'TypedDict' is not defined"))
  /\ Build.define_workflow = Raise (NameError "name 'TypedDict' is not defined").
Proof.
  split; [| split]; reflexivity.
Qed.

(** What the exit handler and the tool-error handler do without a tool call
    to answer: on an empty log each raises an [IndexError]; on an assistant
    message that has no tool call the exit handler still pops and adds no
    message, and the tool-error handler adds no message. *)
Theorem handlers_on_empty_log_and_no_calls :
  (forall ds e,
      handle_tool_error (mkState [] ds e) = Raise (IndexError "list index out of range")
      /\ pop_dialog_state (mkState [] ds e)
         = Raise (IndexError "list index out of range"))
  /\ (forall ms c ds e,
      pop_dialog_state (mkState (ms ++ [AIMessage (mkAI c [])]) ds e)
        = Ok {| d_messages := []; d_dialog_state := Some "pop" |}
      /\ handle_tool_error (mkState (ms ++ [AIMessage (mkAI c [])]) ds e)
        = Ok {| d_messages := []; d_dialog_state := None |}).
Proof.
  split.
  - intros ds e. split; reflexivity.
  - intros ms c ds e.
    unfold pop_dialog_state, handle_tool_error.
    cbn [messages]. rewrite last_item_app. split; reflexivity.
Qed.

(** When the last message is not an assistant message (a user message, a
    tool message), it has no attribute [tool_calls]: the exit handler and
    the tool-error handler raise an [AttributeError], and nothing is
    returned to be merged. *)
Theorem handlers_need_an_assistant_turn (ms : list Message) (m : Message)
    (ds : list string) (e : option PyException)
    (Hm : Aux.is_assistant m = false) :
  exists msg,
    handle_tool_error (mkState (ms ++ [m]) ds e) = Raise (AttributeError msg)
    /\ pop_dialog_state (mkState (ms ++ [m]) ds e) = Raise (AttributeError msg).
Proof.
  unfold pop_dialog_state, handle_tool_error.
  cbn [messages]. rewrite last_item_app.
  destruct m as [t | r | t i | r t]; try discriminate Hm;
    eexists; split; reflexivity.
Qed.

Lemma handlers_need_an_assistant_turn_witness :
  exists msg,
    handle_tool_error
      (mkState [HumanMessage "never mind"] ["coder_assistant"] None)
    = Raise (AttributeError msg)
    /\ pop_dialog_state
         (mkState [HumanMessage "never mind"] ["coder_assistant"] None)
       = Raise (AttributeError msg).
Proof.
  exact (@handlers_need_an_assistant_turn []
           (HumanMessage "never mind") ["coder_assistant"] None eq_refl).
Defined.

(** A push and a later leave put the stack back.  After any node result that
    sets [dialog_state] to a value other than "pop" is merged, a resumed
    session is routed to that value; and whatever messages follow, the exit
    handler merged on a later assistant turn restores the stack of before
    the push, and with it the node a resumed session is routed to. *)
Theorem push_then_leave_restores_stack (s0 : GraphState) (d1 : Delta)
    (target : string) (later : list Message) (turn : AIResult)
    (Hset : d_dialog_state d1 = Some target)
    (Htarget : target <> "pop") :
  let s1 := merge s0 d1 in
  let s2 := mkState (messages s1 ++ later ++ [AIMessage turn])
                    (dialog_state s1) (error s1) in
  route_to_workflow s1 = target
  /\ exists d2,
       pop_dialog_state s2 = Ok d2
       /\ dialog_state (merge s2 d2) = dialog_state s0
       /\ route_to_workflow (merge s2 d2) = route_to_workflow s0.
Proof.
  intros s1 s2.
  assert (Hstack : dialog_state s1 = dialog_state s0 ++ [target]).
  { subst s1. unfold merge. cbn [dialog_state]. rewrite Hset.
    unfold update_dialog_stack.
    destruct (String.eqb_spec target "pop"); [contradiction | reflexivity]. }
  split.
  - unfold route_to_workflow. rewrite Hstack, rev_app_distr. reflexivity.
  - subst s2. unfold pop_dialog_state. cbn [messages].
    rewrite !app_assoc, last_item_app. cbn [bind get_tool_calls].
    eexists. split; [reflexivity |].
    unfold merge, route_to_workflow.
    cbn [d_dialog_state dialog_state update_dialog_stack].
    change (String.eqb "pop" "pop") with true. cbv iota.
    rewrite Hstack, drop_last_app. split; reflexivity.
Qed.

Lemma push_then_leave_restores_stack_witness :
  let s0 := mkState [HumanMessage "build me a REST API";
                     AIMessage (mkAI (Text "") [mkToolCall "ToCoderAssistant" "{}" "call_1"])]
                    ["architect_assistant"] None in
  let d1 := {| d_messages := [ToolMessage "The assistant is now the Coder Assistant." "call_1"];
               d_dialog_state := Some "coder_assistant" |} in
  let s1 := merge s0 d1 in
  let s2 := mkState (messages s1 ++ [] ++
                       [AIMessage (mkAI (Text "")
                          [mkToolCall "CompleteOrEscalate" "{}" "call_2"])])
                    (dialog_state s1) (error s1) in
  route_to_workflow s1 = "coder_assistant"
  /\ exists d2,
       pop_dialog_state s2 = Ok d2
       /\ dialog_state (merge s2 d2) = ["architect_assistant"]
       /\ route_to_workflow (merge s2 d2) = "architect_assistant".
Proof.
  assert (Hn : "coder_assistant" <> "pop") by discriminate.
  exact (@push_then_leave_restores_stack
           (mkState [HumanMessage "build me a REST API";
                     AIMessage (mkAI (Text "") [mkToolCall "ToCoderAssistant" "{}" "call_1"])]
                    ["architect_assistant"] None)
           {| d_messages := [ToolMessage "The assistant is now the Coder Assistant." "call_1"];
              d_dialog_state := Some "coder_assistant" |}
           "coder_assistant" []
           (mkAI (Text "") [mkToolCall "CompleteOrEscalate" "{}" "call_2"])
           eq_refl Hn).
Defined.

(** Session-start routing names a node of the graph: with an empty stack it
    is the coordinator, otherwise the top of the stack; and whenever the
    stack holds names of the specialised assistants only, the name returned
    is registered in [define_workflow]. *)
Theorem route_to_workflow_names_a_node (state : GraphState)
    (Hstack : Forall (fun n => In n Graph.secondary_assistants) (dialog_state state)) :
  Graph.mem (route_to_workflow state) (Aux.node_names Graph.define_workflow) = true
  /\ (dialog_state state = [] -> route_to_workflow state = "primary_assistant")
  /\ (forall ds top, dialog_state state = ds ++ [top] -> route_to_workflow state = top).
Proof.
  destruct state as [ms stack e]. cbn [dialog_state] in *.
  split; [| split].
  - unfold route_to_workflow. cbn [dialog_state].
    destruct (rev stack) as [| top rs] eqn:E; [reflexivity |].
    assert (Hin : In top stack) by (apply in_rev; rewrite E; left; reflexivity).
    rewrite Forall_forall in Hstack. specialize (Hstack top Hin).
    destruct Hstack as [H | [H | [H | []]]]; subst top; reflexivity.
  - intros H. subst stack. reflexivity.
  - intros ds top H. subst stack. apply route_to_workflow_top.
Qed.

Lemma route_to_workflow_names_a_node_witness :
  Graph.mem
    (route_to_workflow (mkState [HumanMessage "run the tests again"]
                                ["coder_assistant"; "tester_assistant"] None))
    (Aux.node_names Graph.define_workflow) = true
  /\ route_to_workflow (mkState [HumanMessage "run the tests again"]
                                ["coder_assistant"; "tester_assistant"] None)
     = "tester_assistant".
Proof.
  assert (Hs : Forall (fun n => In n Graph.secondary_assistants)
                 (dialog_state (mkState [HumanMessage "run the tests again"]
                                  ["coder_assistant"; "tester_assistant"] None))).
  { apply Forall_cons; [right; left; reflexivity |].
    apply Forall_cons; [right; right; left; reflexivity | apply Forall_nil]. }
  destruct (route_to_workflow_names_a_node _ Hs) as [Hnode [_ Htop]].
  split; [exact Hnode |].
  exact (Htop ["coder_assistant"] "tester_assistant" eq_refl).
Defined.

(** ** Correlation of tool messages *)

(** Whatever one of the handlers returns holds tool messages only, and each
    one is correlated to the id of a tool call of the last message of the
    state it was given.  This holds of the tool-error handler, of the exit
    handler, of the nested function [entry_node] as its body reads, and of
    any node that [create_entry_node] would return. *)
Theorem handlers_reply_to_calls_of_last_message (state : GraphState) (d : Delta)
    (a n : string)
    (Hrun : handle_tool_error state = Ok d
            \/ pop_dialog_state state = Ok d
            \/ entry_node a n state = Ok d
            \/ (exists node, create_entry_node a n = Ok node /\ node state = Ok d)) :
  exists front m,
    messages state = front ++ [m]
    /\ Forall (Aux.replies_to m) (d_messages d).
Proof.
  assert (Hrun' : handle_tool_error state = Ok d
                  \/ pop_dialog_state state = Ok d
                  \/ entry_node a n state = Ok d).
  { destruct Hrun as [H | [H | [H | [node [Hnode _]]]]]; auto.
    discriminate Hnode. }
  clear Hrun. rename Hrun' into Hrun.
  unfold handle_tool_error, pop_dialog_state, entry_node in Hrun.
  destruct (last_item (messages state)) as [m | err] eqn:Hlast;
    [| destruct Hrun as [H | [H | H]]; discriminate H].
  destruct (last_item_inv _ Hlast) as [front Hfront].
  exists front, m. split; [exact Hfront |].
  cbn [bind] in Hrun.
  destruct m as [t | [c tcs] | t i | r t];
    try (destruct Hrun as [H | [H | H]]; discriminate H).
  cbn [bind get_tool_calls tool_calls] in Hrun.
  destruct Hrun as [H | [H | H]].
  - injection H as H. subst d. cbn [d_messages].
    apply Forall_forall. intros reply Hin. apply in_map_iff in Hin.
    destruct Hin as [tc [Hreply Htc]]. subst reply.
    eexists. exists (tc_id tc). split; [reflexivity |].
    cbn [Aux.call_ids tool_calls]. apply in_map. exact Htc.
  - injection H as H. subst d. cbn [d_messages].
    destruct tcs as [| tc rest]; [constructor |].
    constructor; [| constructor].
    eexists. exists (tc_id tc). split; [reflexivity | left; reflexivity].
  - destruct tcs as [| tc rest]; [discriminate H |].
    cbn [first_item bind] in H. injection H as H. subst d. cbn [d_messages].
    constructor; [| constructor].
    eexists. exists (tc_id tc). split; [reflexivity | left; reflexivity].
Qed.

Lemma handlers_reply_to_calls_of_last_message_witness :
  exists front m,
    messages (mkState [AIMessage (mkAI (Text "")
                         [mkToolCall "CompleteOrEscalate" "{}" "call_5"])]
                      ["coder_assistant"] None) = front ++ [m]
    /\ Forall (Aux.replies_to m) [ToolMessage resume_text "call_5"].
Proof.
  exact (@handlers_reply_to_calls_of_last_message
           (mkState [AIMessage (mkAI (Text "")
                         [mkToolCall "CompleteOrEscalate" "{}" "call_5"])]
                    ["coder_assistant"] None)
           {| d_messages := [ToolMessage resume_text "call_5"];
              d_dialog_state := Some "pop" |}
           "" "" (or_intror (or_introl eq_refl))).
Defined.

(** With several tool calls in the triggering message, the exit handler
    answers the first one only: a later call whose id differs from the first
    gets no tool message from it, while the tool-error handler answers every
    id, in order. *)
Theorem exit_handler_answers_first_call_only
    (ms : list Message) (c : Content) (tc1 tc2 : ToolCall) (rest : list ToolCall)
    (ds : list string) (e : option PyException)
    (Hid : tc_id tc2 <> tc_id tc1) :
  let state := mkState (ms ++ [AIMessage (mkAI c (tc1 :: tc2 :: rest))]) ds e in
  exists d_exit d_err,
    pop_dialog_state state = Ok d_exit
    /\ handle_tool_error state = Ok d_err
    /\ map Aux.reply_id (d_messages d_exit) = [Some (tc_id tc1)]
    /\ ~ In (Some (tc_id tc2)) (map Aux.reply_id (d_messages d_exit))
    /\ map Aux.reply_id (d_messages d_err)
       = map (fun tc => Some (tc_id tc)) (tc1 :: tc2 :: rest).
Proof.
  intros state. subst state.
  unfold pop_dialog_state, handle_tool_error.
  cbn [messages]. rewrite last_item_app.
  cbn [bind get_tool_calls tool_calls].
  do 2 eexists. do 2 (split; [reflexivity |]).
  cbn [d_messages map Aux.reply_id].
  split; [reflexivity |]. split.
  - intros [E | []]. injection E as E. apply Hid. symmetry. exact E.
  - rewrite map_map. reflexivity.
Qed.

Lemma exit_handler_answers_first_call_only_witness :
  exists d_exit,
    pop_dialog_state
      (mkState [AIMessage (mkAI (Text "")
                  [mkToolCall "CompleteOrEscalate" "{}" "call_1";
                   mkToolCall "write_file" "{}" "call_2"])]
               ["coder_assistant"] None) = Ok d_exit
    /\ map Aux.reply_id (d_messages d_exit) = [Some "call_1"].
Proof.
  assert (Hid : "call_2" <> "call_1") by discriminate.
  destruct (@exit_handler_answers_first_call_only []
              (Text "") (mkToolCall "CompleteOrEscalate" "{}" "call_1")
              (mkToolCall "write_file" "{}" "call_2") []
              ["coder_assistant"] None Hid)
    as [d_exit [d_err [H1 [_ [H2 _]]]]].
  exists d_exit. split; [exact H1 | exact H2].
Defined.

(** ** [format_name] *)

Lemma join_space_cons_char (x : ascii) (p : string) (l : list string) :
  Text.join_space (String x p :: l) = String x (Text.join_space (p :: l)).
Proof.
  destruct l as [| q l]; reflexivity.
Qed.

Lemma split_underscore_nonempty (s : string) :
  exists p ps, Text.split_underscore s = p :: ps.
Proof.
  destruct s as [| c r]; [exists EmptyString, []; reflexivity |].
  simpl. destruct (Ascii.eqb c Text.underscore).
  - eexists. eexists. reflexivity.
  - destruct (Text.split_underscore r); eexists; eexists; reflexivity.
Qed.

Lemma join_split_retitle (s : string) :
  Text.join_space (map Text.capitalize (Text.split_underscore s))
  = Text.retitle true s
  /\ (forall p ps,
        Text.split_underscore s = p :: ps ->
        Text.join_space (Text.lower_all p :: map Text.capitalize ps)
        = Text.retitle false s).
Proof.
  induction s as [| c r [IH1 IH2]].
  - split; [reflexivity |]. intros p ps H. injection H as Hp Hps.
    subst p ps. reflexivity.
  - destruct (split_underscore_nonempty r) as [q [qs Hq]].
    cbn [Text.split_underscore Text.retitle].
    destruct (Ascii.eqb c Text.underscore).
    + assert (Hgap : Text.join_space
                       (EmptyString :: map Text.capitalize (Text.split_underscore r))
                     = String Text.space (Text.retitle true r)).
      { rewrite <- IH1, Hq. reflexivity. }
      split.
      * exact Hgap.
      * intros p ps H. injection H as Hp Hps. subst p ps. exact Hgap.
    + rewrite Hq. split.
      * cbn [map Text.capitalize]. rewrite join_space_cons_char.
        rewrite (IH2 q qs Hq). reflexivity.
      * intros p ps H. injection H as Hp Hps. subst p ps.
        cbn [Text.lower_all]. rewrite join_space_cons_char.
        rewrite (IH2 q qs Hq). reflexivity.
Qed.

Lemma format_name_retitle (s : string) :
  Text.format_name s = Text.retitle true s.
Proof.
  exact (proj1 (join_split_retitle s)).
Qed.

Lemma retitle_length (s : string) :
  forall b, String.length (Text.retitle b s) = String.length s.
Proof.
  induction s as [| c r IH]; intros b; [reflexivity |].
  simpl. destruct (Ascii.eqb c Text.underscore); simpl; rewrite IH; reflexivity.
Qed.

Lemma case_change_makes_no_underscore (c : ascii) :
  Ascii.eqb c Text.underscore = false ->
  Ascii.eqb (Text.upper c) Text.underscore = false
  /\ Ascii.eqb (Text.lower c) Text.underscore = false.
Proof.
  destruct c as [[] [] [] [] [] [] [] []]; intros H;
    try discriminate H; split; reflexivity.
Qed.

Lemma retitle_no_underscore (s : string) :
  forall b, Text.has_char Text.underscore (Text.retitle b s) = false.
Proof.
  induction s as [| c r IH]; intros b; [reflexivity |].
  simpl. destruct (Ascii.eqb c Text.underscore) eqn:E; simpl.
  - apply IH.
  - destruct (case_change_makes_no_underscore c E) as [Hu Hl].
    destruct b; [rewrite Hu | rewrite Hl]; apply IH.
Qed.

Lemma retitle_app_underscore (a r : string) :
  forall b,
    Text.retitle b (a ++ String Text.underscore r)%string
    = (Text.retitle b a ++ String Text.space (Text.retitle true r))%string.
Proof.
  induction a as [| c a IH]; intros b; [reflexivity |].
  simpl. destruct (Ascii.eqb c Text.underscore); rewrite IH; reflexivity.
Qed.

(** On ASCII text [format_name] works character by character: every
    underscore becomes a space, the first character of each part is put in
    upper case and the others in lower case; so the result has the length of
    the name and holds no underscore. *)
Theorem format_name_characterwise (name : string)
    (Hascii : Text.is_ascii_text name = true) :
  Text.format_name name = Text.retitle true name
  /\ String.length (Text.format_name name) = String.length name
  /\ Text.has_char Text.underscore (Text.format_name name) = false.
Proof.
  rewrite format_name_retitle.
  split; [reflexivity |].
  split; [apply retitle_length | apply retitle_no_underscore].
Qed.

Lemma format_name_characterwise_witness :
  Text.format_name "architect_assistant" = "Architect Assistant"
  /\ String.length (Text.format_name "architect_assistant") = 19.
Proof.
  destruct (@format_name_characterwise "architect_assistant" eq_refl)
    as [Hchars [Hlen _]].
  split; [exact Hchars | exact Hlen].
Defined.

(** [format_name] works part by part: the name made of two names joined by
    an underscore is formatted as the two formatted names joined by a
    space. *)
Theorem format_name_splits_at_underscore (a b : string)
    (Ha : Text.is_ascii_text a = true) (Hb : Text.is_ascii_text b = true) :
  Text.format_name (a ++ String Text.underscore b)%string
  = (Text.format_name a ++ String Text.space (Text.format_name b))%string.
Proof.
  rewrite !format_name_retitle. apply retitle_app_underscore.
Qed.

Lemma format_name_splits_at_underscore_witness :
  Text.format_name "tester_assistant" = "Tester Assistant".
Proof.
  exact (@format_name_splits_at_underscore "tester" "assistant" eq_refl eq_refl).
Defined.

Example format_name_edge_cases :
  Text.format_name "" = ""
  /\ Text.format_name "john_doe" = "John Doe"
  /\ Text.format_name "a__B_" = "A  B "
  /\ Text.format_name "HTTP_server" = "Http Server"
  /\ Text.format_name (Text.format_name "john_doe") = "John doe".
Proof. repeat split; reflexivity. Qed.

(** ** The working copy of the invoker *)

Lemma nth_state_fields (k : nat) :
  forall state,
    messages (Prompt.nth_state k state)
    = messages state ++ repeat Assistant.directive k
    /\ dialog_state (Prompt.nth_state k state) = dialog_state state
    /\ error (Prompt.nth_state k state) = error state.
Proof.
  induction k as [| k IH]; intros state.
  - simpl. rewrite app_nil_r. repeat split; reflexivity.
  - destruct (IH (Assistant.with_directive state)) as [Hm [Hd He]].
    cbn [Prompt.nth_state]. rewrite Hm, Hd, He.
    unfold Assistant.with_directive. cbn [messages dialog_state error].
    rewrite <- app_assoc. repeat split; reflexivity.
Qed.

Lemma nth_result_trace (M : Type) (runnable : Runnable M) (k : nat) :
  forall m state,
    Assistant.nth_result runnable k m state
    = fst (invoke runnable (Prompt.nth_model runnable k m state)
                  (Prompt.nth_state k state)).
Proof.
  induction k as [| k IH]; intros m state; [reflexivity |].
  simpl. apply IH.
Qed.

Lemma call_loop_model_after (M : Type) (runnable : Runnable M) (fuel : nat) :
  forall m state done o,
    Assistant.call_loop runnable fuel m state done = Some o ->
    exists k,
      Assistant.invocations o = done + S k
      /\ Assistant.model_after o
         = snd (invoke runnable (Prompt.nth_model runnable k m state)
                       (Prompt.nth_state k state)).
Proof.
  induction fuel as [| fuel IH]; intros m state done o H; [discriminate H |].
  simpl in H. destruct (invoke runnable m state) as [result m'] eqn:Hinv.
  destruct (Assistant.needs_retry result).
  - destruct (IH _ _ _ _ H) as [k [Hk Hafter]].
    exists (S k). split; [lia |]. simpl. rewrite Hinv. exact Hafter.
  - injection H as H. subst o. exists 0. simpl. rewrite Hinv.
    split; [lia | reflexivity].
Qed.

(** What the model is shown.  When the invoker returns after [n]
    invocations, the answer it returns was given to a working copy whose
    messages are those of the state it was called with followed by [n - 1]
    copies of the retry directive, with the stack untouched; the merged log
    is the log of the state it was called with followed by that answer. *)
Theorem invoker_prompt_grows_by_directives (M : Type) (runnable : Runnable M)
    (fuel : nat) (m : M) (state : GraphState) (o : Assistant.Outcome M)
    (Hcall : Assistant.call runnable fuel m state = Some o) :
  let k := Assistant.invocations o - 1 in
  let shown := Prompt.nth_state k state in
  let answer := fst (invoke runnable (Prompt.nth_model runnable k m state) shown) in
  Assistant.invocations o = S k
  /\ messages shown = messages state ++ repeat Assistant.directive k
  /\ dialog_state shown = dialog_state state
  /\ Assistant.returned o
     = {| d_messages := [AIMessage answer]; d_dialog_state := None |}
  /\ Assistant.model_after o
     = snd (invoke runnable (Prompt.nth_model runnable k m state) shown)
  /\ messages (merge state (Assistant.returned o))
     = messages state ++ [AIMessage answer].
Proof.
  intros k shown answer.
  destruct (call_loop_returned _ _ _ _ _ Hcall) as [k1 [_ [_ [_ [Hret Hinv1]]]]].
  destruct (call_loop_model_after _ _ _ _ _ Hcall) as [k2 [Hinv2 Hafter]].
  assert (Ek1 : k1 = k) by (subst k; lia).
  assert (Ek2 : k2 = k) by (subst k; lia).
  subst k1 k2.
  destruct (nth_state_fields k state) as [Hm [Hd _]].
  rewrite nth_result_trace in Hret.
  split; [simpl in Hinv1; exact Hinv1 |].
  split; [exact Hm |]. split; [exact Hd |].
  split; [exact Hret |]. split; [exact Hafter |].
  rewrite Hret. reflexivity.
Qed.

Lemma invoker_prompt_grows_by_directives_witness :
  exists o,
    Assistant.call Models.scripted 3
      [Spec.empty_answer; Spec.empty_answer; Models.text_answer "Here is the plan."]
      (mkState [HumanMessage "build me a REST API"] [] None) = Some o
    /\ messages (Prompt.nth_state (Assistant.invocations o - 1)
                   (mkState [HumanMessage "build me a REST API"] [] None))
       = [HumanMessage "build me a REST API";
          Assistant.directive; Assistant.directive].
Proof.
  eexists. split; [reflexivity |].
  exact (proj1 (proj2 (@invoker_prompt_grows_by_directives _ Models.scripted 3
           [Spec.empty_answer; Spec.empty_answer;
            Models.text_answer "Here is the plan."]
           (mkState [HumanMessage "build me a REST API"] [] None) _ eq_refl))).
Defined.

(** Only the first block of a structured content is looked at.  While every
    answer has no tool call and a structured content whose first block has no
    text, the invoker never returns, whatever text the later blocks hold. *)
Theorem invoker_reads_first_block_only (M : Type) (runnable : Runnable M)
    (m : M) (state : GraphState)
    (Hall : forall k,
        tool_calls (Assistant.nth_result runnable k m state) = []
        /\ Aux.first_block_textless
             (content (Assistant.nth_result runnable k m state))) :
  forall fuel, Assistant.call runnable fuel m state = None.
Proof.
  intros fuel. apply call_loop_runs_on. intros k.
  destruct (Hall k) as [Hcalls [b [rest [Hc Htext]]]].
  unfold Assistant.needs_retry. rewrite Hcalls, Hc. simpl.
  destruct Htext as [Ht | Ht]; rewrite Ht; reflexivity.
Qed.

Lemma invoker_reads_first_block_only_witness :
  Assistant.call
    (Aux.constant_model
       (mkAI (Blocks [[("type", "image_url")]; [("type", "text"); ("text", "Done.")]])
             []))
    1000 tt (mkState [HumanMessage "draw the schema"] [] None) = None.
Proof.
  apply invoker_reads_first_block_only.
  intros k.
  assert (H : forall st,
             Assistant.nth_result
               (Aux.constant_model
                  (mkAI (Blocks [[("type", "image_url")];
                                 [("type", "text"); ("text", "Done.")]]) []))
               k tt st
             = mkAI (Blocks [[("type", "image_url")];
                             [("type", "text"); ("text", "Done.")]]) []).
  { induction k as [| k IH]; intros st; [reflexivity | apply IH]. }
  rewrite H. split; [reflexivity |].
  exists [("type", "image_url")], [[("type", "text"); ("text", "Done.")]].
  split; [reflexivity | left; reflexivity].
Defined.

(** An answer with a tool call is never retried: when the first answer of
    the model has at least one tool call, whatever its content, the invoker
    returns it after one invocation, for any fuel but zero, and the model
    has been shown the state as it was given. *)
Lemma invoker_accepts_tool_calls_at_once (M : Type) (runnable : Runnable M)
    (m : M) (state : GraphState) (fuel : nat)
    (Hcalls : tool_calls (fst (invoke runnable m state)) <> [])
    (Hfuel : 0 < fuel) :
  Assistant.call runnable fuel m state
  = Some {| Assistant.returned :=
              {| d_messages := [AIMessage (fst (invoke runnable m state))];
                 d_dialog_state := None |};
            Assistant.model_after := snd (invoke runnable m state);
            Assistant.invocations := 1 |}.
Proof.
  destruct fuel as [| fuel]; [lia |].
  unfold Assistant.call. simpl.
  destruct (invoke runnable m state) as [result m'] eqn:Hinv.
  simpl in *. unfold Assistant.needs_retry.
  destruct (tool_calls result) as [| tc rest]; [contradiction Hcalls; reflexivity |].
  reflexivity.
Qed.

(** ** The values the routers return *)

Lemma log_cases (l : list Message) :
  l = [] \/ exists front m, l = front ++ [m].
Proof.
  destruct l as [| x l] using rev_ind; [left; reflexivity |].
  right. exists l, x. reflexivity.
Qed.

(** The routers return the values of their [return] statements and no
    others: a name is the route of some state exactly when it is the
    terminal marker, one of the fixed node names of the router, or the tool
    node of the assistant. *)
Theorem router_ranges (name target : string) :
  ((exists state, PrimaryAssistant.route_assistant name state = Ok target)
   <-> In target (PrimaryAssistant.return_values name))
  /\ ((exists state, SecondaryAssistant.route_assistant name state = Ok target)
      <-> In target (SecondaryAssistant.return_values name)).
Proof.
  split; split.
  - intros [[msgs ds e] H].
    destruct (log_cases msgs) as [E | [front [m E]]]; subst msgs;
      [discriminate H |].
    rewrite route_primary_as_specified in H. injection H as H. subst target.
    unfold Spec.coordinator_router, PrimaryAssistant.return_values.
    destruct (Spec.first_tool_call m) as [tc |]; [| left; reflexivity].
    rewrite lookup_handoffs.
    destruct (String.eqb (tc_name tc) Tools.ToArchitectAssistant);
      [right; left; reflexivity |].
    destruct (String.eqb (tc_name tc) Tools.ToCoderAssistant);
      [right; right; left; reflexivity |].
    destruct (String.eqb (tc_name tc) Tools.ToTesterAssistant);
      [right; right; right; left; reflexivity |].
    right; right; right; right; left; reflexivity.
  - intros [H | [H | [H | [H | [H | []]]]]]; subst target.
    + exists (mkState [AIMessage (mkAI (Text "Done.") [])] [] None). reflexivity.
    + exists (mkState [AIMessage (mkAI (Text "")
                         [mkToolCall Tools.ToArchitectAssistant "{}" "call_1"])] [] None).
      reflexivity.
    + exists (mkState [AIMessage (mkAI (Text "")
                         [mkToolCall Tools.ToCoderAssistant "{}" "call_1"])] [] None).
      reflexivity.
    + exists (mkState [AIMessage (mkAI (Text "")
                         [mkToolCall Tools.ToTesterAssistant "{}" "call_1"])] [] None).
      reflexivity.
    + exists (mkState [AIMessage (mkAI (Text "")
                         [mkToolCall "web_search" "{}" "call_1"])] [] None).
      reflexivity.
  - intros [[msgs ds e] H].
    destruct (log_cases msgs) as [E | [front [m E]]]; subst msgs;
      [discriminate H |].
    rewrite route_secondary_by_names in H. injection H as H. subst target.
    unfold SecondaryAssistant.return_values.
    destruct (Aux.call_names m) as [| n ns]; [left; reflexivity |].
    destruct (Graph.mem Tools.CompleteOrEscalate (n :: ns));
      [right; left; reflexivity | right; right; left; reflexivity].
  - intros [H | [H | [H | []]]]; subst target.
    + exists (mkState [AIMessage (mkAI (Text "Done.") [])] [] None). reflexivity.
    + exists (mkState [AIMessage (mkAI (Text "")
                         [mkToolCall Tools.CompleteOrEscalate "{}" "call_1"])] [] None).
      reflexivity.
    + exists (mkState [AIMessage (mkAI (Text "")
                         [mkToolCall "write_file" "{}" "call_1"])] [] None).
      reflexivity.
Qed.

Lemma router_ranges_witness :
  exists state,
    PrimaryAssistant.route_assistant "primary_assistant" state
    = Ok "enter_coder_assistant".
Proof.
  apply (proj2 (proj1 (router_ranges "primary_assistant" "enter_coder_assistant"))).
  right. right. left. reflexivity.
Defined.

(** ** Pushes followed by pops *)

Lemma run_app (start : list string) (a b : list Ops.Op) :
  Ops.run start (a ++ b) = Ops.run (Ops.run start a) b.
Proof. unfold Ops.run. apply fold_left_app. Qed.

Lemma run_pushes (xs : list string) :
  forall start,
    Forall (fun x => x <> "pop") xs ->
    Ops.run start (map Some xs) = start ++ xs.
Proof.
  induction xs as [| x xs IH]; intros start H.
  - simpl. symmetry. apply app_nil_r.
  - inversion H as [| ? ? Hx Hrest]; subst.
    cbn [map]. rewrite run_cons. unfold update_dialog_stack.
    destruct (String.eqb_spec x "pop"); [contradiction |].
    rewrite (IH _ Hrest), <- app_assoc. reflexivity.
Qed.

Lemma run_pops (n : nat) :
  forall start, Ops.run start (repeat (Some "pop") n) = Ops.drop_n n start.
Proof.
  induction n as [| n IH]; intros start.
  - simpl. symmetry. apply drop_n_zero.
  - cbn [repeat]. rewrite run_cons.
    change (update_dialog_stack start (Some "pop")) with (drop_last start).
    rewrite IH. apply drop_n_drop_last.
Qed.

(** Pushing the values [xs], none of them the sentinel, and then popping [n]
    times leaves the starting stack followed by [xs], without its last [n]
    entries; popping more often than there are entries leaves the empty
    stack, without an error. *)
Theorem pushes_then_pops (start xs : list string) (n : nat)
    (Hxs : Forall (fun x => x <> "pop") xs) :
  Ops.run start (map Some xs ++ repeat (Some "pop") n)
  = firstn (List.length start + List.length xs - n) (start ++ xs)
  /\ (List.length start + List.length xs <= n ->
      Ops.run start (map Some xs ++ repeat (Some "pop") n) = []).
Proof.
  assert (H : Ops.run start (map Some xs ++ repeat (Some "pop") n)
              = firstn (List.length start + List.length xs - n) (start ++ xs)).
  { rewrite run_app, (run_pushes start Hxs), run_pops.
    unfold Ops.drop_n. rewrite length_app. reflexivity. }
  split; [exact H |].
  intros Hn. rewrite H.
  replace (List.length start + List.length xs - n) with 0 by lia. reflexivity.
Qed.

Lemma pushes_then_pops_witness :
  Ops.run ["architect_assistant"]
    (map Some ["coder_assistant"; "tester_assistant"] ++ repeat (Some "pop") 2)
  = ["architect_assistant"].
Proof.
  assert (Hxs : Forall (fun x => x <> "pop") ["coder_assistant"; "tester_assistant"]).
  { apply Forall_cons; [discriminate |].
    apply Forall_cons; [discriminate | apply Forall_nil]. }
  exact (proj1 (@pushes_then_pops ["architect_assistant"]
                  ["coder_assistant"; "tester_assistant"] 2 Hxs)).
Defined.
